(** * HALMD [examples/plotting/plot_h5md.py]: block averages of H5MD observables

    A shallow embedding of the script's two functions, [compute_average]
    (the block-average reducer) and [main] (the driver), and of the few
    NumPy / Python primitives they call.

    Samples are IEEE-754 double precision numbers in the program.  The reducer
    is written once over an interface of arithmetic operations ([Arith]) and
    instantiated twice: at [binary64] (Rocq's executable specification of
    IEEE-754 binary64, [SpecFloat], which is what the script computes with)
    and at the real numbers [R] (the arithmetic the block-averaging formulas
    are meant in). *)

From Stdlib Require Import String Ascii.
From Stdlib Require Import ZArith List Bool Lia.
From Stdlib Require Import Reals Lra.
From Stdlib Require Import SpecFloat DecimalString.
Import ListNotations.

Local Open Scope Z_scope.

(** ** Python exceptions and results *)

Inductive exn : Type :=
| ZeroDivisionError
| ValueError
| KeyError
| IOError
| TypeError.

Inductive result (A : Type) : Type :=
| Ok (a : A)
| Raise (e : exn).
Arguments Ok {A} a.
Arguments Raise {A} e.

Definition result_bind {A B} (r : result A) (k : A -> result B) : result B :=
  match r with
  | Ok a => k a
  | Raise e => Raise e
  end.

(** ** The arithmetic of samples *)

Class Arith (F : Type) : Type := {
  f_zero : F;
  f_add : F -> F -> F;
  f_sub : F -> F -> F;
  f_mul : F -> F -> F;
  f_div : F -> F -> F;
  f_sqrt : F -> F;
  f_ltb : F -> F -> bool;
  (** conversion of a Python integer, as NumPy does when an array meets an
      integer operand *)
  f_of_Z : Z -> F
}.

(** IEEE-754 binary64: 53 bits of precision, infinities at exponent 1024,
    rounding to nearest, ties to even. *)
Definition binary64 : Type := spec_float.

Definition b64_prec : Z := 53.
Definition b64_emax : Z := 1024.

Definition b64_of_Z (n : Z) : binary64 :=
  binary_normalize b64_prec b64_emax n 0 false.

#[export] Instance binary64_arith : Arith binary64 := {
  f_zero := S754_zero false;
  f_add := SFadd b64_prec b64_emax;
  f_sub := SFsub b64_prec b64_emax;
  f_mul := SFmul b64_prec b64_emax;
  f_div := SFdiv b64_prec b64_emax;
  f_sqrt := SFsqrt b64_prec b64_emax;
  f_ltb := SFltb;
  f_of_Z := b64_of_Z
}.

Definition Rltb (x y : R) : bool := if Rlt_dec x y then true else false.

#[export] Instance real_arith : Arith R := {
  f_zero := 0%R;
  f_add := Rplus;
  f_sub := Rminus;
  f_mul := Rmult;
  f_div := Rdiv;
  f_sqrt := sqrt;
  f_ltb := Rltb;
  f_of_Z := IZR
}.

(** ** Python slicing of a one-dimensional sequence *)

(** [clamp_index n i] is the position a slice bound [i] denotes in a
    sequence of length [n]: a negative bound counts from the end, and a bound
    outside the sequence is clamped to it. *)
Definition clamp_index (n i : Z) : Z :=
  let i' := if i <? 0 then i + n else i in
  Z.max 0 (Z.min n i').

(** [py_slice l i j] is [l[i:j]]. *)
Definition py_slice {A} (l : list A) (i j : Z) : list A :=
  let n := Z.of_nat (length l) in
  let lo := clamp_index n i in
  let hi := clamp_index n j in
  firstn (Z.to_nat (hi - lo)) (skipn (Z.to_nat lo) l).

(** [py_slice_to l j] is [l[:j]]. *)
Definition py_slice_to {A} (l : list A) (j : Z) : list A :=
  let n := Z.of_nat (length l) in
  firstn (Z.to_nat (clamp_index n j)) l.

(** ** The NumPy primitives the script uses *)

Section Numpy.
Context {F : Type} `{Arith F}.

(** A two-dimensional array in C (row-major) order. *)
Record array2 : Type := {
  nrows : Z;
  ncols : Z;
  buf : list F
}.

(** [reshape(a, (n, -1))] of a one-dimensional array: the missing dimension
    is inferred from the size; NumPy refuses a second negative dimension, a
    known part of size zero and a size that the known part does not
    divide. *)
Definition reshape_rows (a : list F) (n : Z) : result array2 :=
  let size := Z.of_nat (length a) in
  if n <? 0 then Raise ValueError
  else if n =? 0 then Raise ValueError
  else if negb (size mod n =? 0) then Raise ValueError
  else Ok {| nrows := n; ncols := size / n; buf := a |}.

(** [add.reduce]: accumulation from left to right, from zero.  (NumPy adds
    long contiguous runs pairwise; the order matters to the rounding in
    binary64 only, and the sample series below are short or sum exactly.) *)
Definition sum (l : list F) : F := fold_left f_add l f_zero.

(** [mean] of a flat sequence: the sum divided by the number of items (for
    no items, zero divided by zero). *)
Definition mean (l : list F) : F :=
  f_div (sum l) (f_of_Z (Z.of_nat (length l))).

(** [std(a, ddof)]: deviations from the mean, squared, summed, divided by
    [max(n - ddof, 0)], square root.  The script leaves [ddof] at its
    default, 0. *)
Definition std_ddof (ddof : Z) (l : list F) : F :=
  let m := mean l in
  let sq := map (fun x => let d := f_sub x m in f_mul d d) l in
  f_sqrt (f_div (sum sq) (f_of_Z (Z.max (Z.of_nat (length l) - ddof) 0))).

Definition std (l : list F) : F := std_ddof 0 l.

(** Item [(i, j)] of a row-major array sits at offset [i * ncols + j]. *)
Definition item (a : array2) (i j : nat) : F :=
  nth (i * Z.to_nat (ncols a) + j) (buf a) f_zero.

Definition row (a : array2) (i : nat) : list F :=
  map (item a i) (seq 0 (Z.to_nat (ncols a))).

(** [mean(a)]: over all items. *)
Definition mean_all (a : array2) : F := mean (buf a).

(** [mean(a, axis=1)]: one mean per row. *)
Definition mean_axis1 (a : array2) : list F :=
  map (fun i => mean (row a i)) (seq 0 (Z.to_nat (nrows a))).

(** ** [compute_average], the value it returns

    [data.shape[0] / nblocks] is Python 2 integer division: it floors, and
    raises on a zero divisor. *)
Definition py_floordiv (a b : Z) : result Z :=
  if b =? 0 then Raise ZeroDivisionError else Ok (a / b).

Definition compute_average_value (data : list F) (nblocks : Z)
  : result (F * F) :=
  result_bind (py_floordiv (Z.of_nat (length data)) nblocks) (fun q =>
  result_bind (reshape_rows (py_slice_to data (nblocks * q)) nblocks) (fun data' =>
  let avg := mean_all data' in
  let err := f_div (std (mean_axis1 data')) (f_sqrt (f_of_Z (nblocks - 1))) in
  Ok (avg, err))).

End Numpy.

(** ** The blocks, as contiguous pieces of a sequence

    [blocks c n l] cuts the first [n * c] items of [l] into [n] consecutive
    pieces of [c] items each.  It is the reference the row-major indexing of
    [mean_axis1] is compared with. *)
Fixpoint blocks {A} (c n : nat) (l : list A) : list (list A) :=
  match n with
  | O => []
  | S n' => firstn c l :: blocks c n' (skipn c l)
  end.

(** The samples [compute_average] retains. *)
Definition retained {A} (data : list A) (nblocks : Z) : list A :=
  firstn (Z.to_nat (Z.of_nat (length data) / nblocks * nblocks)) data.

(** The means of the blocks of the retained samples. *)
Definition block_means {F} `{Arith F} (data : list F) (nblocks : Z) : list F :=
  map mean (blocks (Z.to_nat (Z.of_nat (length data) / nblocks))
                   (Z.to_nat nblocks) (retained data nblocks)).

(** ** Rendering numbers as text

    The conversions the script asks of Python and NumPy: [{:.4f}], [{:.2g}]
    and [{:g}] of [str.format], and the [%.18e] that [savetxt] applies to
    every item. *)

Class Render (F : Type) : Type := {
  fmt_fixed4 : F -> string;
  fmt_general2 : F -> string;
  fmt_general : F -> string;
  fmt_exp18 : F -> string
}.

Module Decimal64.

Local Open Scope string_scope.

Definition digits_of_Z (z : Z) : string :=
  NilZero.string_of_uint (N.to_uint (Z.to_N z)).

Fixpoint zeros (n : nat) : string :=
  match n with
  | O => EmptyString
  | S n' => String "0" (zeros n')
  end.

(** [z] in at least [w] digits. *)
Definition pad_digits (w : nat) (z : Z) : string :=
  let d := digits_of_Z z in
  zeros (w - String.length d) ++ d.

(** Quotient of non-negative [a] by positive [b], to nearest, ties to
    even. *)
Definition div_half_even (a b : Z) : Z :=
  let q := a / b in
  let r := a mod b in
  match (2 * r ?= b)%Z with
  | Lt => q
  | Gt => q + 1
  | Eq => if Z.even q then q else q + 1
  end.

(** The magnitude [m * 2^e] as a fraction. *)
Definition fraction (m : positive) (e : Z) : Z * Z :=
  if (0 <=? e)%Z then (Zpos m * 2 ^ e, 1) else (Zpos m, 2 ^ (- e)).

(** [n / d * 10^s], rounded to an integer. *)
Definition scaled (nd : Z * Z) (s : Z) : Z :=
  let (n, d) := nd in
  if (0 <=? s)%Z then div_half_even (n * 10 ^ s) d
  else div_half_even n (d * 10 ^ (- s)).

Definition count_digits (z : Z) : Z :=
  Z.of_nat (String.length (digits_of_Z z)).

(** Floor of the decimal logarithm of a positive fraction. *)
Definition floor_log10 (nd : Z * Z) : Z :=
  let (n, d) := nd in
  if (d <=? n)%Z then count_digits (n / d) - 1
  else
    let t := count_digits (d / n) in
    if (d <=? n * 10 ^ (t - 1))%Z then - (t - 1) else - t.

(** The [p + 1] significant digits and the decimal exponent of [%.pe]. *)
Definition exp_digits (p : Z) (m : positive) (e : Z) : Z * Z :=
  let nd := fraction m e in
  let k := floor_log10 nd in
  let D := scaled nd (p - k) in
  if (10 ^ (p + 1) <=? D)%Z then (D / 10, k + 1) else (D, k).

Definition sign_text (s : bool) : string := if s then "-" else EmptyString.

Definition point_text (frac : string) : string :=
  match frac with
  | EmptyString => EmptyString
  | _ => "." ++ frac
  end.

Definition exponent_text (x : Z) : string :=
  (if (x <? 0)%Z then "e-" else "e+") ++ pad_digits 2 (Z.abs x).

Definition exp_text (p : Z) (D x : Z) (strip : string -> string) : string :=
  let ds := pad_digits (Z.to_nat (p + 1)) D in
  match ds with
  | EmptyString => EmptyString
  | String c rest => String c (point_text (strip rest)) ++ exponent_text x
  end.

Definition fixed_text (p : Z) (m : positive) (e : Z)
           (strip : string -> string) : string :=
  let D := scaled (fraction m e) p in
  let ip := D / 10 ^ p in
  let fp := D mod 10 ^ p in
  digits_of_Z ip
  ++ point_text (strip (if (p =? 0)%Z then EmptyString else pad_digits (Z.to_nat p) fp)).

Fixpoint strip_zeros (s : string) : string :=
  match s with
  | EmptyString => EmptyString
  | String c rest =>
      match strip_zeros rest with
      | EmptyString => if Ascii.eqb c "0" then EmptyString else String c EmptyString
      | rest' => String c rest'
      end
  end.

Definition keep (s : string) : string := s.

Definition special_text (x : binary64) (finite : bool -> positive -> Z -> string)
           (zero : bool -> string) : string :=
  match x with
  | S754_nan => "nan"
  | S754_infinity s => sign_text s ++ "inf"
  | S754_zero s => zero s
  | S754_finite s m e => finite s m e
  end.

(** [%.pe] *)
Definition format_e (p : Z) (x : binary64) : string :=
  special_text x
    (fun s m e => let (D, k) := exp_digits p m e in
                  sign_text s ++ exp_text p D k keep)
    (fun s => sign_text s ++ exp_text p 0 0 keep).

(** [%.pf] *)
Definition format_f (p : Z) (x : binary64) : string :=
  special_text x
    (fun s m e => sign_text s ++ fixed_text p m e keep)
    (fun s => sign_text s ++ "0" ++ point_text (zeros (Z.to_nat p))).

(** [%.pg]: with [P] the precision (1 for 0) and [X] the exponent of the
    [e] conversion, style [f] with precision [P - 1 - X] when
    [-4 <= X < P], style [e] with precision [P - 1] otherwise; trailing
    zeros of the fraction are removed. *)
Definition format_g (p : Z) (x : binary64) : string :=
  let P := if (p =? 0)%Z then 1 else p in
  special_text x
    (fun s m e =>
       let (D, X) := exp_digits (P - 1) m e in
       sign_text s ++
       (if ((-4 <=? X) && (X <? P))%Z
        then fixed_text (P - 1 - X) m e strip_zeros
        else exp_text (P - 1) D X strip_zeros))
    (fun s => sign_text s ++ "0").

End Decimal64.

#[export] Instance binary64_render : Render binary64 := {
  fmt_fixed4 := Decimal64.format_f 4;
  fmt_general2 := Decimal64.format_g 2;
  fmt_general := Decimal64.format_g 6;
  fmt_exp18 := Decimal64.format_e 18
}.

(** ** The driver

    What a run can observe and change: the text printed so far (with Python
    2's soft-space flag of [print]), the text files, the H5MD files, and the
    requests made to the plotting library, in order. *)

Section Driver.
Context {F : Type} `{Arith F} `{Render F}.

Local Open Scope string_scope.

Definition nl : string := String (ascii_of_nat 10) EmptyString.

(** The two bytes of the UTF-8 plus-minus sign in the report line. *)
Definition plus_minus : string :=
  String (ascii_of_nat 194) (String (ascii_of_nat 177) EmptyString).

Record param_group : Type := {
  box_particles : option string;         (* H5param["box"].attrs["particles"], as text *)
  param_force : option string;           (* H5param.attrs["force"] *)
  force_cutoff : string -> option string; (* H5param[force].attrs["cutoff"], as text *)
  box_length : option (list F);          (* H5param["box"].attrs["length"] *)
  box_density : option F                 (* H5param["box"].attrs["density"] *)
}.

Record h5file : Type := {
  h5_param : option param_group;         (* H5["param"] *)
  h5_dataset : string -> option (list F) (* H5["TEMP"], ... *)
}.

Inductive plot_cmd : Type :=
| Plot (x y : list F) (style : string) (label : option string)
| Axis (mode : string)
| XLabel (text : string)
| YLabel (text : string)
| Legend
| ShowFigure.

Record world : Type := {
  stdout : string;
  softspace : bool;
  files : string -> option string;
  h5files : string -> option h5file;
  figure : list plot_cmd
}.

Record arguments : Type := {
  arg_range : option (Z * Z);   (* --range START END *)
  arg_dump : option string;     (* --dump FILENAME *)
  arg_no_plot : bool;           (* --no-plot *)
  arg_input : string            (* INPUT *)
}.

(** Computations that read and change the world and may raise; what was
    done before an exception stays done. *)
Definition M (A : Type) : Type := world -> result A * world.

Definition ret {A} (a : A) : M A := fun w => (Ok a, w).

Definition bind {A B} (c : M A) (k : A -> M B) : M B :=
  fun w => match c w with
           | (Ok a, w') => k a w'
           | (Raise e, w') => (Raise e, w')
           end.

Definition raise {A} (e : exn) : M A := fun w => (Raise e, w).

Definition lift {A} (r : result A) : M A := fun w => (r, w).

Notation "x <- c ;; k" := (bind c (fun x => k))
  (at level 61, c at next level, right associativity).
Notation "c ;; k" := (bind c (fun _ => k))
  (at level 61, right associativity).

Definition when (b : bool) (c : M unit) : M unit := if b then c else ret tt.

Fixpoint for_each {A} (l : list A) (body : A -> M unit) : M unit :=
  match l with
  | [] => ret tt
  | a :: l' => body a ;; for_each l' body
  end.

Definition lookup {A} (o : option A) : M A :=
  match o with
  | Some a => ret a
  | None => raise KeyError
  end.

Definition set_stdout (text : string) (soft : bool) (w : world) : world :=
  {| stdout := text; softspace := soft;
     files := files w; h5files := h5files w; figure := figure w |}.

Definition set_files (fs : string -> option string) (w : world) : world :=
  {| stdout := stdout w; softspace := softspace w;
     files := fs; h5files := h5files w; figure := figure w |}.

Definition set_figure (fig : list plot_cmd) (w : world) : world :=
  {| stdout := stdout w; softspace := softspace w;
     files := files w; h5files := h5files w; figure := fig |}.

(** Python 2 writes a space before an item that follows [print ...,]. *)
Definition soft (w : world) : string := if softspace w then " " else EmptyString.

(** [print s] *)
Definition print (s : string) : M unit := fun w =>
  (Ok tt, set_stdout (stdout w ++ soft w ++ s ++ nl) false w).

(** [print s,] *)
Definition print_comma (s : string) : M unit := fun w =>
  (Ok tt, set_stdout (stdout w ++ soft w ++ s) true w).

(** [print] *)
Definition print_newline : M unit := fun w =>
  (Ok tt, set_stdout (stdout w ++ nl) false w).

(** Writing to a file opened with mode ['a']: the text goes after what the
    file holds; a file that does not exist is created.  The path given to
    [--dump] is taken to be one that [open] accepts (a writable place that is
    not a directory) and to name a text file, not the H5MD input. *)
Definition contents (fs : string -> option string) (path : string) : string :=
  match fs path with
  | Some old => old
  | None => EmptyString
  end.

Definition append (path text : string) (fs : string -> option string)
  : string -> option string :=
  fun p => if String.eqb p path then Some (contents fs path ++ text) else fs p.

Definition write_append (path text : string) : M unit := fun w =>
  (Ok tt, set_files (append path text (files w)) w).

(** [print >>f, s] *)
Definition print_to (path s : string) : M unit := write_append path (s ++ nl).

(** A request that the plotting library accepts is recorded in the
    figure.  The library is taken to have a working backend: it refuses a
    request only for what is asked of it. *)
Definition plotting (c : plot_cmd) : M unit := fun w =>
  (Ok tt, set_figure (figure w ++ [c]) w).

(** [plot(x, y, style, label=...)]: the library refuses two sequences of
    different lengths with ValueError, and nothing is drawn; otherwise the
    line is recorded. *)
Definition plot (x y : list F) (style : string) (label : option string)
  : M unit :=
  if Nat.eqb (length x) (length y) then plotting (Plot x y style label)
  else raise ValueError.

(** [h5py.File(path, 'r')] *)
Definition h5_open (path : string) : M h5file := fun w =>
  match h5files w path with
  | Some f => (Ok f, w)
  | None => (Raise IOError, w)
  end.

(** [array((x, y)).T]: for two sequences of one length the two-dimensional
    array of the rows [(x_i, y_i)].  Two sequences of different lengths do
    not make a two-dimensional array: NumPy builds an array of two objects,
    the sequences themselves, and raises nothing here. *)
Inductive table : Type :=
| Rows (rows : list (F * F))
| Ragged (x y : list F).

Definition columns (x y : list F) : table :=
  if Nat.eqb (length x) (length y) then Rows (combine x y) else Ragged x y.

(** [savetxt(f, a)] with its defaults: every item as [%.18e], items
    separated by one space, one row per line.  An array of objects has no
    item that [%.18e] converts: the first row raises TypeError and nothing
    is written. *)
Definition savetxt_row (r : F * F) : string :=
  fmt_exp18 (fst r) ++ " " ++ fmt_exp18 (snd r) ++ nl.

Definition savetxt (path : string) (a : table) : M unit :=
  match a with
  | Rows rows => for_each rows (fun r => write_append path (savetxt_row r))
  | Ragged _ _ => raise TypeError
  end.

(** The built-in [min] and [max] over the items of a sequence. *)
Definition py_min (l : list F) : result F :=
  match l with
  | [] => Raise ValueError
  | a :: l' => Ok (fold_left (fun m x => if f_ltb x m then x else m) l' a)
  end.

Definition py_max (l : list F) : result F :=
  match l with
  | [] => Raise ValueError
  | a :: l' => Ok (fold_left (fun m x => if f_ltb m x then x else m) l' a)
  end.

(** [linspace(start, stop, num)] for [num >= 2]. *)
Definition linspace (start stop : F) (num : nat) : list F :=
  let step := f_div (f_sub stop start) (f_of_Z (Z.of_nat num - 1)) in
  map (fun i => f_add (f_mul (f_of_Z (Z.of_nat i)) step) start) (seq 0 (num - 1))
  ++ [stop].

(** [compute_average(data, label, nblocks)] *)
Definition compute_average (data : list F) (label : string) (nblocks : Z)
  : M (F * F) :=
  r <- lift (compute_average_value data nblocks) ;;
  print (label ++ ": " ++ fmt_fixed4 (fst r) ++ " " ++ plus_minus ++ " "
               ++ fmt_general2 (snd r)) ;;
  ret r.

(** The default of the keyword argument [nblocks]. *)
Definition default_nblocks : Z := 10.

(** [args.range or [0, -1]] *)
Definition range_of (args : arguments) : Z * Z :=
  match arg_range args with
  | Some r => r
  | None => (0, -1)
  end.

(** [array(d)[range[0]:range[1]]] *)
Definition select (range : Z * Z) (d : list F) : list F :=
  py_slice d (fst range) (snd range).

(** [if args.dump:] holds for a file name that is given and not empty. *)
Definition dump_target (args : arguments) : option string :=
  match arg_dump args with
  | Some EmptyString => None
  | other => other
  end.

Definition dump_header : string := "# time   E_pot(t)".

(** [# print some details] *)
Definition print_details (H5param : param_group) : M unit :=
  particles <- lookup (box_particles H5param) ;;
  print ("Particles: " ++ particles) ;;
  force <- lookup (param_force H5param) ;;
  cutoff <- lookup (force_cutoff H5param force) ;;
  print ("Force cutoff: " ++ cutoff) ;;
  print_comma "Box size:" ;;
  len <- lookup (box_length H5param) ;;
  for_each len (fun x => print_comma (" " ++ fmt_general x)) ;;
  print_newline ;;
  density <- lookup (box_density H5param) ;;
  print ("Density: " ++ fmt_general density).

(** [# append plot data to file] *)
Definition append_plot_data (args : arguments) (x y : list F) : M unit :=
  match dump_target args with
  | Some f =>
      print_to f dump_header ;;
      savetxt f (columns x y) ;;
      print_to f nl
  | None => ret tt
  end.

(** [# plot mean value for comparison] *)
Definition plot_mean_value (x : list F) (epot : F) : M unit :=
  lo <- lift (py_min x) ;;
  hi <- lift (py_max x) ;;
  let x' := linspace lo hi 50 in
  let y' := map (fun z => f_add z epot) (map (fun _ => f_zero) x') in
  plot x' y' ":k" None.

(** [# add axes labels and finalise plot] *)
Definition finalise_plot : M unit :=
  plotting (Axis "tight") ;;
  plotting (XLabel "Time $t$") ;;
  plotting (YLabel "Potential energy $E_\mathrm{pot}$") ;;
  plotting Legend ;;
  plotting ShowFigure.

(** [main].  Of the pair [epot, epot_err] only the mean is used, for the
    line over the plot.  The closing [H5.close()] changes nothing that is
    observed here. *)
Definition main (args : arguments) : M unit :=
  let range := range_of args in
  H5 <- h5_open (arg_input args) ;;
  H5param <- lookup (h5_param H5) ;;
  print_details H5param ;;
  TEMP <- lookup (h5_dataset H5 "TEMP") ;;
  temp <- compute_average (select range TEMP) "Temperature" default_nblocks ;;
  PRESS <- lookup (h5_dataset H5 "PRESS") ;;
  pressure <- compute_average (select range PRESS) "Pressure" default_nblocks ;;
  EPOT <- lookup (h5_dataset H5 "EPOT") ;;
  epot <- compute_average (select range EPOT) "Potential energy" default_nblocks ;;
  TIME <- lookup (h5_dataset H5 "TIME") ;;
  let x := select range TIME in
  EPOT' <- lookup (h5_dataset H5 "EPOT") ;;
  let y := select range EPOT' in
  when (negb (arg_no_plot args))
       (plot x y "-b" (Some (arg_input args))) ;;
  append_plot_data args x y ;;
  when (negb (arg_no_plot args)) (plot_mean_value x (fst epot)) ;;
  when (negb (arg_no_plot args)) finalise_plot.

(** What a computation returns and the world it leaves. *)
Definition returned {A} (c : M A) (w : world) : result A := fst (c w).
Definition after {A} (c : M A) (w : world) : world := snd (c w).

(** The text one run with [--dump] adds to the file, for the selected
    times [x] and potential energies [y]. *)
Definition dump_rows (x y : list F) : list string :=
  map savetxt_row (combine x y).

Definition join (lines : list string) : string :=
  fold_right String.append EmptyString lines.

Definition dump_block (x y : list F) : string :=
  dump_header ++ nl ++ join (dump_rows x y) ++ nl ++ nl.

(** The last four statements of [main]: first plot, dump, mean line,
    finishing of the figure. *)
Definition plot_and_dump (args : arguments) (x y : list F) (epot : F)
  : M unit :=
  when (negb (arg_no_plot args))
       (plot x y "-b" (Some (arg_input args))) ;;
  append_plot_data args x y ;;
  when (negb (arg_no_plot args)) (plot_mean_value x epot) ;;
  when (negb (arg_no_plot args)) finalise_plot.

(** Two stores of text files with the same contents. *)
Definition agree (fs1 fs2 : string -> option string) : Prop :=
  forall p, fs1 p = fs2 p.

(** The files after [savetxt] has written its rows to [f]. *)
Definition write_rows (f : string) (rows : list (F * F))
           (fs : string -> option string) : string -> option string :=
  fold_left (fun fs r => append f (savetxt_row r) fs) rows fs.

(** A computation that returns [a] and touches neither the text files nor
    the H5MD files. *)
Definition quiet {A} (c : M A) (a : A) : Prop :=
  forall w, exists w',
    c w = (Ok a, w') /\ files w' = files w /\ h5files w' = h5files w.

(** A computation that, returning or raising, touches neither. *)
Definition harmless {A} (c : M A) : Prop :=
  forall w, files (after c w) = files w /\ h5files (after c w) = h5files w.

(** An H5MD file that holds everything the script reads. *)
Definition complete (f : h5file) (temp press epot time : list F) : Prop :=
  (exists pg particles force cutoff len density,
      h5_param f = Some pg /\
      box_particles pg = Some particles /\
      param_force pg = Some force /\
      force_cutoff pg force = Some cutoff /\
      box_length pg = Some len /\
      box_density pg = Some density) /\
  h5_dataset f "TEMP" = Some temp /\
  h5_dataset f "PRESS" = Some press /\
  h5_dataset f "EPOT" = Some epot /\
  h5_dataset f "TIME" = Some time.

(** A computation that leaves one part of the world, seen through [view],
    as it found it, whether it returns or raises. *)
Definition keeps {A T} (view : world -> T) (c : M A) : Prop :=
  forall w, view (after c w) = view w.

(** A computation all of whose exceptions satisfy [P]. *)
Definition raises_only {A} (P : exn -> Prop) (c : M A) : Prop :=
  forall w e, returned c w = Raise e -> P e.

(** The statements of [main] before the first plot: reading, printing and
    averaging.  They yield the two series of the plot and the mean of the
    potential energy. *)
Definition analysis (range : Z * Z) (input : string)
  : M (list F * list F * F) :=
  H5 <- h5_open input ;;
  H5param <- lookup (h5_param H5) ;;
  print_details H5param ;;
  TEMP <- lookup (h5_dataset H5 "TEMP") ;;
  temp <- compute_average (select range TEMP) "Temperature" default_nblocks ;;
  PRESS <- lookup (h5_dataset H5 "PRESS") ;;
  pressure <- compute_average (select range PRESS) "Pressure" default_nblocks ;;
  EPOT <- lookup (h5_dataset H5 "EPOT") ;;
  epot <- compute_average (select range EPOT) "Potential energy" default_nblocks ;;
  TIME <- lookup (h5_dataset H5 "TIME") ;;
  EPOT' <- lookup (h5_dataset H5 "EPOT") ;;
  ret (select range TIME, select range EPOT', fst epot).

(** The four lines that [# print some details] prints. *)
Definition details_text (particles cutoff : string) (len : list F)
           (density : F) : string :=
  "Particles: " ++ particles ++ nl
  ++ "Force cutoff: " ++ cutoff ++ nl
  ++ "Box size:" ++ join (map (fun x => "  " ++ fmt_general x) len) ++ nl
  ++ "Density: " ++ fmt_general density ++ nl.

(** The line that [compute_average] prints for a pair it returns. *)
Definition report_line (label : string) (r : F * F) : string :=
  label ++ ": " ++ fmt_fixed4 (fst r) ++ " " ++ plus_minus ++ " "
  ++ fmt_general2 (snd r) ++ nl.

(** The pair that [compute_average] returns for ten blocks. *)
Definition block_average (data : list F) : F * F :=
  (mean (retained data default_nblocks),
   f_div (std (block_means data default_nblocks))
         (f_sqrt (f_of_Z (default_nblocks - 1)))).

End Driver.

(** ** Sample inputs *)

Definition b64 (s : bool) (m : positive) (e : Z) : binary64 := S754_finite s m e.

(** The double nearest to one tenth, [0x1.999999999999ap-4]. *)
Definition tenth : binary64 := b64 false 7205759403792794 (-56).

Definition b64_nan : binary64 := S754_nan.

Definition series (l : list Z) : list binary64 := map b64_of_Z l.

(** A small H5MD file: twelve recorded steps. *)
Definition sample_param : @param_group binary64 := {|
  box_particles := Some "1000"%string;
  param_force := Some "lennard_jones"%string;
  force_cutoff := fun name =>
    if String.eqb name "lennard_jones" then Some "2.5"%string else None;
  box_length := Some (series [10; 10; 10]);
  box_density := Some (f_div (b64_of_Z 3) (b64_of_Z 4))
|}.

Definition sample_file : @h5file binary64 := {|
  h5_param := Some sample_param;
  h5_dataset := fun name =>
    if String.eqb name "TIME" then Some (series [0; 1; 2; 3; 4; 5; 6; 7; 8; 9; 10; 11])
    else if String.eqb name "EPOT"
         then Some (series [-5; -4; -6; -5; -4; -6; -5; -4; -6; -5; -4; 7])
    else if String.eqb name "TEMP"
         then Some (series [1; 2; 1; 2; 1; 2; 1; 2; 1; 2; 1; 2])
    else if String.eqb name "PRESS"
         then Some (series [3; 3; 3; 3; 3; 3; 3; 3; 3; 3; 3; 3])
    else None
|}.

Definition sample_world : @world binary64 := {|
  stdout := EmptyString;
  softspace := false;
  files := fun _ => None;
  h5files := fun path =>
    if String.eqb path "run.h5" then Some sample_file else None;
  figure := []
|}.

Definition sample_args (range : option (Z * Z)) (dump : option string)
           (no_plot : bool) : arguments := {|
  arg_range := range;
  arg_dump := dump;
  arg_no_plot := no_plot;
  arg_input := "run.h5"%string
|}.

(** A run with [--dump out.txt --no-plot] on the sample file, and the dump
    file it leaves. *)
Definition dump_args (range : option (Z * Z)) : arguments :=
  sample_args range (Some "out.txt"%string) true.

Definition sample_dump (range : option (Z * Z)) : option string :=
  files (after (main (dump_args range)) sample_world) "out.txt"%string.

(** The two rows of times 0 and 1 of the sample file. *)
Definition sample_rows : string :=
  ("0.000000000000000000e+00 -5.000000000000000000e+00" ++ nl
   ++ "1.000000000000000000e+00 -4.000000000000000000e+00" ++ nl)%string.

(** The sample file without its PRESS dataset, and a world that holds it
    under the same name. *)
Definition partial_file : @h5file binary64 := {|
  h5_param := Some sample_param;
  h5_dataset := fun name =>
    if String.eqb name "PRESS" then None else h5_dataset sample_file name
|}.

Definition partial_world : @world binary64 := {|
  stdout := EmptyString;
  softspace := false;
  files := fun _ => None;
  h5files := fun path =>
    if String.eqb path "run.h5" then Some partial_file else None;
  figure := []
|}.

(** The sample file with one more recorded time than it has potential
    energies, and a world that holds it under the same name. *)
Definition ragged_file : @h5file binary64 := {|
  h5_param := Some sample_param;
  h5_dataset := fun name =>
    if String.eqb name "TIME"
    then Some (series [0; 1; 2; 3; 4; 5; 6; 7; 8; 9; 10; 11; 12])
    else h5_dataset sample_file name
|}.

Definition ragged_world : @world binary64 := {|
  stdout := EmptyString;
  softspace := false;
  files := fun _ => None;
  h5files := fun path =>
    if String.eqb path "run.h5" then Some ragged_file else None;
  figure := []
|}.

(** Arguments that name a file that is not there. *)
Definition absent_args : arguments := {|
  arg_range := None;
  arg_dump := Some "out.txt"%string;
  arg_no_plot := false;
  arg_input := "absent.h5"%string
|}.

(** * Properties *)

Section ListFacts.
Context {A : Type}.

Lemma blocks_length (c n : nat) (l : list A) : length (blocks c n l) = n.
Proof.
  revert l; induction n as [|n IH]; intros l; simpl; [reflexivity|].
  now rewrite IH.
Qed.

Lemma blocks_concat (c n : nat) (l : list A) :
  length l = (n * c)%nat -> concat (blocks c n l) = l.
Proof.
  revert l; induction n as [|n IH]; intros l Hl; simpl in *.
  - now destruct l.
  - rewrite IH.
    + apply firstn_skipn.
    + rewrite length_skipn. lia.
Qed.

Lemma blocks_Forall_length (c n : nat) (l : list A) :
  length l = (n * c)%nat -> Forall (fun b => length b = c) (blocks c n l).
Proof.
  revert l; induction n as [|n IH]; intros l Hl; simpl in *; constructor.
  - rewrite length_firstn. lia.
  - apply IH. rewrite length_skipn. lia.
Qed.

Lemma blocks_offsets (c n : nat) (l : list A) :
  blocks c n l = map (fun i => firstn c (skipn (i * c) l)) (seq 0 n).
Proof.
  revert l; induction n as [|n IH]; intros l; simpl; [reflexivity|].
  f_equal. rewrite IH, <- seq_shift, map_map.
  apply map_ext; intros i. now rewrite skipn_skipn, Nat.add_comm.
Qed.

Lemma map_nth_seq (d : A) (c o : nat) (l : list A) :
  (o + c <= length l)%nat ->
  map (fun j => nth (o + j) l d) (seq 0 c) = firstn c (skipn o l).
Proof.
  revert l; induction o as [|o IHo]; intros l Hl.
  - simpl skipn. revert l Hl; induction c as [|c IHc]; intros l Hl; [reflexivity|].
    destruct l as [|x l]; simpl in Hl; [lia|].
    simpl. f_equal. rewrite <- seq_shift, map_map. apply IHc. lia.
  - destruct l as [|x l]; simpl in Hl; [lia|].
    simpl. apply IHo. lia.
Qed.

Lemma firstn_firstn_same (k : nat) (l : list A) :
  firstn k (firstn k l) = firstn k l.
Proof. rewrite firstn_firstn. now rewrite Nat.min_id. Qed.

End ListFacts.

(** Arithmetic of the truncation length. *)
Lemma clamp_index_id (n k : Z) : 0 <= k <= n -> clamp_index n k = k.
Proof. unfold clamp_index; intros Hk. destruct (Z.ltb_spec k 0); lia. Qed.

Lemma trunc_bounds (n b : Z) : 0 <= n -> 0 < b -> 0 <= b * (n / b) <= n.
Proof.
  intros Hn Hb. split.
  - apply Z.mul_nonneg_nonneg; [lia|]. apply Z.div_pos; lia.
  - apply Z.mul_div_le; lia.
Qed.

Section Reducer.
Context {F : Type} `{Arith F}.

Lemma row_is_block (n c : Z) (l : list F) (i : nat) :
  0 <= c -> (i * Z.to_nat c + Z.to_nat c <= length l)%nat ->
  row {| nrows := n; ncols := c; buf := l |} i
  = firstn (Z.to_nat c) (skipn (i * Z.to_nat c) l).
Proof.
  intros Hc Hi. unfold row, item; simpl.
  now apply map_nth_seq.
Qed.

Lemma mean_axis1_blocks (n c : Z) (l : list F) :
  0 <= n -> 0 <= c -> Z.of_nat (length l) = n * c ->
  mean_axis1 {| nrows := n; ncols := c; buf := l |}
  = map mean (blocks (Z.to_nat c) (Z.to_nat n) l).
Proof.
  intros Hn Hc Hl. unfold mean_axis1; simpl.
  rewrite blocks_offsets, map_map.
  apply map_ext_in; intros i Hi. apply in_seq in Hi.
  rewrite row_is_block; [reflexivity|lia|].
  assert (length l = (Z.to_nat n * Z.to_nat c)%nat) as -> by nia.
  nia.
Qed.

(** For a positive block count the reducer never raises; its value is
    computed from the retained samples and from the means of their
    blocks. *)
Lemma compute_average_value_blocks (data : list F) (nblocks : Z) :
  0 < nblocks ->
  compute_average_value data nblocks
  = Ok (mean (retained data nblocks),
        f_div (std (block_means data nblocks))
              (f_sqrt (f_of_Z (nblocks - 1)))).
Proof.
  intros Hb. unfold compute_average_value, py_floordiv, block_means, retained.
  set (N := Z.of_nat (length data)).
  assert (HN : 0 <= N) by (unfold N; lia).
  pose proof (trunc_bounds N nblocks HN Hb) as Hk.
  destruct (Z.eqb_spec nblocks 0) as [?|_]; [lia|]. simpl.
  unfold py_slice_to. fold N. rewrite clamp_index_id by exact Hk.
  replace (N / nblocks * nblocks) with (nblocks * (N / nblocks)) by lia.
  set (k := nblocks * (N / nblocks)) in *.
  assert (Hlen : Z.of_nat (length (firstn (Z.to_nat k) data)) = k).
  { rewrite length_firstn. unfold N in *. lia. }
  unfold reshape_rows. rewrite Hlen.
  destruct (Z.ltb_spec nblocks 0) as [?|_]; [lia|].
  destruct (Z.eqb_spec nblocks 0) as [?|_]; [lia|].
  assert (Hmod : k mod nblocks = 0).
  { unfold k. rewrite Z.mul_comm. apply Z_mod_mult. }
  rewrite Hmod. simpl.
  assert (Hq : k / nblocks = N / nblocks).
  { unfold k. rewrite Z.mul_comm. apply Z_div_mult. lia. }
  rewrite Hq. unfold mean_all; simpl.
  rewrite mean_axis1_blocks; [reflexivity|lia| |].
  - apply Z.div_pos; lia.
  - rewrite Hlen. reflexivity.
Qed.

End Reducer.


(** ** The reducer *)

Section ReducerLaws.
Context {F : Type} `{Arith F}.

Lemma retained_all (data : list F) (B : Z) :
  0 < B -> Z.of_nat (length data) mod B = 0 -> retained data B = data.
Proof.
  intros HB Hmod. unfold retained.
  set (N := Z.of_nat (length data)) in *.
  assert (N / B * B = N) as ->.
  { pose proof (Z_div_mod_eq_full N B). lia. }
  unfold N. rewrite Nat2Z.id. apply firstn_all.
Qed.

Lemma retained_length (data : list F) (B : Z) :
  0 < B ->
  Z.of_nat (length (retained data B)) = Z.of_nat (length data) / B * B.
Proof.
  intros HB. unfold retained. rewrite length_firstn.
  pose proof (trunc_bounds (Z.of_nat (length data)) B ltac:(lia) HB). lia.
Qed.

Lemma retained_quotient (data : list F) (B : Z) :
  0 < B ->
  Z.of_nat (length (retained data B)) / B = Z.of_nat (length data) / B.
Proof.
  intros HB. rewrite retained_length by exact HB. apply Z_div_mult. lia.
Qed.

Lemma retained_idempotent (data : list F) (B : Z) :
  0 < B -> retained (retained data B) B = retained data B.
Proof.
  intros HB. unfold retained at 1.
  rewrite retained_quotient by exact HB.
  unfold retained. apply firstn_firstn_same.
Qed.

(** The reducer sees only the retained samples. *)
Lemma compute_average_value_retained (data : list F) (B : Z) :
  0 < B ->
  compute_average_value data B = compute_average_value (retained data B) B.
Proof.
  intros HB. rewrite !compute_average_value_blocks by exact HB.
  unfold block_means.
  rewrite retained_quotient, retained_idempotent by exact HB.
  reflexivity.
Qed.

(** C1: for an input of N samples, N a positive multiple of the block
    count B >= 2, [compute_average] returns the arithmetic mean of all
    retained samples (the input cut to floor(N/B)*B samples, here all of
    it: their total divided by their number) together with the standard
    deviation of the means of the B contiguous blocks of N/B samples each
    (the root of the mean squared deviation of the block means from their
    own mean), divided by sqrt(B-1).  Totals, means and deviations are
    written out in the operations of the arithmetic. *)
Theorem compute_average_mean_and_standard_error (data : list F) (B : Z) :
  2 <= B ->
  0 < Z.of_nat (length data) ->
  Z.of_nat (length data) mod B = 0 ->
  let N := Z.of_nat (length data) in
  let total := fun l : list F => fold_left f_add l f_zero in
  let kept := firstn (Z.to_nat (N / B * B)) data in
  let bs := blocks (Z.to_nat (N / B)) (Z.to_nat B) kept in
  let ms := map (fun b => f_div (total b) (f_of_Z (N / B))) bs in
  let mbar := f_div (total ms) (f_of_Z B) in
  let dev2 := map (fun m => f_mul (f_sub m mbar) (f_sub m mbar)) ms in
  kept = data /\
  concat bs = kept /\
  Z.of_nat (length bs) = B /\
  Forall (fun b => Z.of_nat (length b) = N / B) bs /\
  compute_average_value data B
  = Ok (f_div (total kept) (f_of_Z (Z.of_nat (length kept))),
        f_div (f_sqrt (f_div (total dev2) (f_of_Z B)))
              (f_sqrt (f_of_Z (B - 1)))).
Proof.
  intros HB HN Hmod N total kept bs ms mbar dev2.
  assert (Hq : 0 <= N / B) by (apply Z.div_pos; unfold N; lia).
  assert (Hlen : length (retained data B)
                 = (Z.to_nat B * Z.to_nat (N / B))%nat).
  { pose proof (retained_length data B ltac:(lia)). unfold N. nia. }
  assert (Hall : Forall (fun b => length b = Z.to_nat (N / B)) bs)
    by (apply blocks_Forall_length; exact Hlen).
  split; [apply retained_all; lia|].
  split; [apply blocks_concat; exact Hlen|].
  split; [unfold bs; rewrite blocks_length; lia|].
  split.
  - eapply Forall_impl; [|exact Hall].
    simpl; intros b Hb. lia.
  - rewrite compute_average_value_blocks by lia.
    assert (Hms : block_means data B = ms).
    { unfold block_means, ms. apply map_ext_in. intros b Hb.
      rewrite Forall_forall in Hall. unfold mean.
      rewrite (Hall b Hb), Z2Nat.id by lia. reflexivity. }
    assert (Hl : Z.of_nat (length ms) = B).
    { unfold ms, bs. rewrite length_map, blocks_length. lia. }
    rewrite Hms. unfold std, std_ddof, mean. rewrite Hl.
    replace (Z.max (B - 0) 0) with B by lia.
    reflexivity.
Qed.

(** C3: truncation law.  For a block count B >= 2 that does not divide the
    number N of samples, [compute_average] returns on the full sequence
    the pair it returns on the first floor(N/B)*B samples: the last
    N mod B samples have no effect. *)
Theorem truncation_law (data : list F) (B : Z) :
  2 <= B ->
  Z.of_nat (length data) mod B <> 0 ->
  compute_average_value data B
  = compute_average_value
      (firstn (Z.to_nat (Z.of_nat (length data) / B * B)) data) B.
Proof.
  intros HB _. apply compute_average_value_retained. lia.
Qed.

Lemma block_means_length (data : list F) (B : Z) :
  0 <= B -> Z.of_nat (length (block_means data B)) = B.
Proof.
  intros HB. unfold block_means. rewrite length_map, blocks_length. lia.
Qed.

End ReducerLaws.

(** C9: for an input whose length is a positive multiple of B, the standard
    deviation taken across the B block means m_i divides the sum of squared
    deviations by B (NumPy's default, ddof = 0), not by B-1:
    standard_error = sqrt((1/B) * sum_i (m_i - mbar)^2) / sqrt(B-1).
    First in the operations of the program, for any arithmetic; then, for
    real numbers, in the written form of the formula. *)
Theorem standard_error_population_deviation :
  (forall (F : Type) (A : Arith F) (data : list F) (B : Z),
      2 <= B ->
      0 < Z.of_nat (length data) ->
      Z.of_nat (length data) mod B = 0 ->
      let ms := block_means data B in
      let mbar := f_div (sum ms) (f_of_Z B) in
      let dev2 := map (fun m => f_mul (f_sub m mbar) (f_sub m mbar)) ms in
      compute_average_value data B
      = Ok (mean data,
            f_div (f_sqrt (f_div (sum dev2) (f_of_Z B)))
                  (f_sqrt (f_of_Z (B - 1)))))
  /\
  (forall (data : list R) (B : Z),
      2 <= B ->
      0 < Z.of_nat (length data) ->
      Z.of_nat (length data) mod B = 0 ->
      let ms := block_means data B in
      let mbar := (sum ms / IZR B)%R in
      let dev2 := map (fun m => ((m - mbar) * (m - mbar))%R) ms in
      compute_average_value data B
      = Ok (mean data,
            (sqrt (1 / IZR B * sum dev2) / sqrt (IZR B - 1))%R)).
Proof.
  assert (G : forall (F : Type) (A : Arith F) (data : list F) (B : Z),
      2 <= B ->
      0 < Z.of_nat (length data) ->
      Z.of_nat (length data) mod B = 0 ->
      let ms := block_means data B in
      let mbar := f_div (sum ms) (f_of_Z B) in
      let dev2 := map (fun m => f_mul (f_sub m mbar) (f_sub m mbar)) ms in
      compute_average_value data B
      = Ok (mean data,
            f_div (f_sqrt (f_div (sum dev2) (f_of_Z B)))
                  (f_sqrt (f_of_Z (B - 1))))).
  { intros F A data B HB HN Hmod ms mbar dev2.
    rewrite compute_average_value_blocks by lia.
    rewrite retained_all by (assumption || lia).
    pose proof (block_means_length data B ltac:(lia)) as Hl. fold ms in Hl.
    unfold std, std_ddof, mean. fold ms. rewrite Hl.
    replace (Z.max (B - 0) 0) with B by lia.
    reflexivity. }
  split; [exact G|].
  intros data B HB HN Hmod ms mbar dev2.
  rewrite (G R real_arith data B HB HN Hmod).
  do 2 f_equal.
  replace (1 / IZR B * sum dev2)%R with (sum dev2 / IZR B)%R
    by (unfold Rdiv; ring).
  rewrite <- (minus_IZR B 1). reflexivity.
Qed.

(** Four samples 2, 4, 6, 12 in two blocks: the block means are 3 and 9,
    the mean is 6 and the standard error is 3. *)
Lemma compute_average_mean_and_standard_error_witness :
  (2 <= 2 /\ 0 < Z.of_nat (length (series [2; 4; 6; 12])) /\
   Z.of_nat (length (series [2; 4; 6; 12])) mod 2 = 0) /\
  blocks 2 2 (series [2; 4; 6; 12]) = [series [2; 4]; series [6; 12]] /\
  compute_average_value (series [2; 4; 6; 12]) 2
  = Ok (b64_of_Z 6, b64_of_Z 3).
Proof.
  split.
  - repeat split; vm_compute; first [reflexivity | discriminate].
  - split; [reflexivity|].
    destruct (compute_average_mean_and_standard_error (series [2; 4; 6; 12]) 2)
      as (_ & _ & _ & _ & E);
      [vm_compute; discriminate | vm_compute; reflexivity
      | vm_compute; reflexivity |].
    rewrite E. vm_compute. reflexivity.
Defined.

Lemma truncation_law_witness :
  (2 <= 2 /\ Z.of_nat (length (series [1; 2; 3; 4; 5])) mod 2 <> 0) /\
  compute_average_value (series [1; 2; 3; 4; 5]) 2
  = compute_average_value (series [1; 2; 3; 4]) 2.
Proof.
  split.
  - split; vm_compute; first [reflexivity | discriminate].
  - apply (truncation_law (series [1; 2; 3; 4; 5]) 2);
      vm_compute; first [reflexivity | discriminate].
Defined.

Lemma standard_error_population_deviation_witness :
  (2 <= 2 /\ 0 < Z.of_nat (length (series [1; 2; 3; 4])) /\
   Z.of_nat (length (series [1; 2; 3; 4])) mod 2 = 0) /\
  compute_average_value (series [1; 2; 3; 4]) 2
  = Ok (f_div (b64_of_Z 5) (b64_of_Z 2), b64_of_Z 1).
Proof.
  split.
  - repeat split; vm_compute; first [reflexivity | discriminate].
  - rewrite (proj1 standard_error_population_deviation binary64 _
               (series [1; 2; 3; 4]) 2);
      vm_compute; first [reflexivity | discriminate].
Defined.

(** ** More blocks than samples *)

Section NotANumber.

Lemma fold_add_nan (l : list binary64) :
  fold_left f_add l S754_nan = S754_nan.
Proof. induction l as [|x l IH]; simpl; [reflexivity|exact IH]. Qed.

Lemma sum_nan_head (l : list binary64) : sum (S754_nan :: l) = S754_nan.
Proof. unfold sum. simpl. apply fold_add_nan. Qed.

Lemma mean_nan_head (l : list binary64) : mean (S754_nan :: l) = S754_nan.
Proof. unfold mean. rewrite sum_nan_head. reflexivity. Qed.

Lemma mean_no_items : mean (@nil binary64) = S754_nan.
Proof. reflexivity. Qed.

Lemma std_nan_head (l : list binary64) : std (S754_nan :: l) = S754_nan.
Proof.
  unfold std, std_ddof. rewrite mean_nan_head.
  cbn [map]. cbn [f_sub f_mul binary64_arith SFsub SFmul].
  rewrite sum_nan_head. reflexivity.
Qed.

Lemma blocks_of_nothing {A} (n : nat) (l : list A) :
  blocks 0 n l = repeat [] n.
Proof. induction n as [|n IH]; simpl; [reflexivity|now rewrite IH]. Qed.

(** C5: a block count that exceeds the number of samples leaves nothing to
    average: no exception is raised, and both numbers returned are NaN,
    never an ordinary number. *)
Theorem more_blocks_than_samples_is_nan (data : list binary64) (B : Z) :
  Z.of_nat (length data) < B ->
  compute_average_value data B = Ok (b64_nan, b64_nan).
Proof.
  intros HB.
  rewrite compute_average_value_blocks by lia.
  unfold block_means, retained.
  rewrite Z.div_small by lia. simpl firstn.
  rewrite blocks_of_nothing, map_repeat, mean_no_items.
  destruct (Z.to_nat B) as [|n] eqn:E; [lia|].
  simpl repeat. rewrite std_nan_head. reflexivity.
Qed.

Lemma more_blocks_than_samples_is_nan_witness :
  Z.of_nat (length (map b64_of_Z [1; 2; 3])) < 10 /\
  compute_average_value (map b64_of_Z [1; 2; 3]) 10 = Ok (b64_nan, b64_nan).
Proof.
  split.
  - vm_compute. reflexivity.
  - apply (more_blocks_than_samples_is_nan (map b64_of_Z [1; 2; 3]) 10).
    vm_compute. reflexivity.
Defined.

End NotANumber.

(** ** A constant series *)

Section ConstantSeries.

Lemma firstn_repeat {A} (v : A) (k n : nat) :
  (k <= n)%nat -> firstn k (repeat v n) = repeat v k.
Proof.
  revert n; induction k as [|k IH]; intros n Hk; [reflexivity|].
  destruct n as [|n]; [lia|]. simpl. f_equal. apply IH. lia.
Qed.

Lemma skipn_repeat {A} (v : A) (k n : nat) :
  skipn k (repeat v n) = repeat v (n - k).
Proof.
  revert n; induction k as [|k IH]; intros n.
  - now rewrite Nat.sub_0_r.
  - destruct n as [|n]; [reflexivity|]. simpl. apply IH.
Qed.

Lemma blocks_repeat {A} (v : A) (c n m : nat) :
  (n * c <= m)%nat -> blocks c n (repeat v m) = repeat (repeat v c) n.
Proof.
  revert m; induction n as [|n IH]; intros m Hm; [reflexivity|].
  simpl. rewrite firstn_repeat by lia. f_equal.
  rewrite skipn_repeat. apply IH. simpl in Hm. lia.
Qed.

Local Open Scope R_scope.

Lemma fold_Rplus_shift (l : list R) (a : R) :
  fold_left Rplus l a = a + fold_left Rplus l 0.
Proof.
  revert a; induction l as [|x l IH]; intros a; simpl.
  - ring.
  - rewrite IH, (IH (0 + x)). ring.
Qed.

Lemma sum_repeat_real (v : R) (n : nat) : sum (repeat v n) = INR n * v.
Proof.
  induction n as [|n IH].
  - simpl. unfold sum. simpl. ring.
  - rewrite S_INR. unfold sum in *. simpl repeat. simpl fold_left.
    rewrite fold_Rplus_shift. simpl in IH. rewrite IH. ring.
Qed.

Lemma mean_repeat_real (v : R) (n : nat) :
  (0 < n)%nat -> mean (repeat v n) = v.
Proof.
  intros Hn. unfold mean. rewrite sum_repeat_real, repeat_length.
  simpl. rewrite <- INR_IZR_INZ.
  field. apply not_0_INR. lia.
Qed.

Lemma std_repeat_real (v : R) (n : nat) :
  (0 < n)%nat -> std (repeat v n) = 0.
Proof.
  intros Hn. unfold std, std_ddof.
  rewrite mean_repeat_real by exact Hn.
  rewrite map_repeat. simpl f_sub. simpl f_mul.
  replace ((v - v) * (v - v)) with 0 by ring.
  rewrite sum_repeat_real, Rmult_0_r.
  simpl. unfold Rdiv. rewrite Rmult_0_l. apply sqrt_0.
Qed.

(** C4, in the arithmetic of real numbers: N samples all equal to v, cut
    into B blocks with 2 <= B <= N, have mean v and standard error 0. *)
Theorem constant_series_exact_arithmetic (v : R) (N : nat) (B : Z) :
  (2 <= B <= Z.of_nat N)%Z ->
  compute_average_value (repeat v N) B = Ok (v, 0).
Proof.
  intros [HB HN].
  rewrite compute_average_value_blocks by lia.
  unfold block_means, retained. rewrite repeat_length.
  set (q := (Z.of_nat N / B)%Z).
  assert (Hq : (1 <= q)%Z).
  { unfold q. apply Z.div_le_lower_bound; lia. }
  assert (Hk : (q * B <= Z.of_nat N)%Z).
  { unfold q. rewrite Z.mul_comm. apply Z.mul_div_le. lia. }
  rewrite firstn_repeat by lia.
  rewrite blocks_repeat by nia.
  rewrite map_repeat.
  rewrite !mean_repeat_real by nia.
  rewrite std_repeat_real by lia.
  simpl. unfold Rdiv. rewrite Rmult_0_l. reflexivity.
Qed.

Lemma constant_series_exact_arithmetic_witness :
  (2 <= 3 <= Z.of_nat 3)%Z /\
  compute_average_value (repeat (1 / 10) 3) 3 = Ok (1 / 10, 0).
Proof.
  split.
  - simpl. lia.
  - apply (constant_series_exact_arithmetic (1 / 10) 3 3). simpl. lia.
Defined.

(** In double precision the same does not hold: three samples equal to the
    double nearest to 0.1, in three blocks, have a computed mean one unit
    in the last place above the sample, and a computed standard error that
    is not zero. *)
Lemma constant_series_binary64_rounds :
  (2 <= 3 <= Z.of_nat 3)%Z /\
  compute_average_value (repeat tenth 3) 3
  = Ok (b64 false 7205759403792795 (-56), b64 false 6369051672525772 (-109)) /\
  compute_average_value (repeat tenth 3) 3 <> Ok (tenth, f_zero).
Proof.
  split; [simpl; lia|].
  split; [vm_compute; reflexivity|].
  vm_compute. discriminate.
Qed.

End ConstantSeries.

(** ** The driver *)

Section SliceLaws.
Context {A : Type}.

Lemma py_slice_valid (l : list A) (i j : Z) :
  0 <= i <= j -> j <= Z.of_nat (length l) ->
  py_slice l i j = firstn (Z.to_nat (j - i)) (skipn (Z.to_nat i) l).
Proof.
  intros Hi Hj. unfold py_slice.
  rewrite !clamp_index_id by lia. reflexivity.
Qed.

Lemma py_slice_valid_length (l : list A) (i j : Z) :
  0 <= i <= j -> j <= Z.of_nat (length l) ->
  Z.of_nat (length (py_slice l i j)) = j - i.
Proof.
  intros Hi Hj. rewrite py_slice_valid by lia.
  rewrite length_firstn, length_skipn. lia.
Qed.

(** [l[0:-1]] is [l] without its last item. *)
Lemma py_slice_0_minus1 (l : list A) : py_slice l 0 (-1) = removelast l.
Proof.
  unfold py_slice, clamp_index. simpl skipn.
  destruct l as [|a l]; [reflexivity|].
  replace (Z.max 0 (Z.min (Z.of_nat (length (a :: l))) 0)) with 0 by lia.
  replace (Z.to_nat _) with (length l)
    by (cbn [length Z.ltb Z.compare]; lia).
  simpl skipn. generalize a.
  induction l as [|b l IH]; intros a0; [reflexivity|].
  cbn [length firstn removelast]. f_equal.
  specialize (IH b). cbn [removelast] in IH. exact IH.
Qed.

(** A bound beyond the end is the end. *)
Lemma py_slice_beyond (l : list A) (i j : Z) :
  Z.of_nat (length l) <= j ->
  py_slice l i j = py_slice l i (Z.of_nat (length l)).
Proof.
  intros Hj. unfold py_slice.
  assert (E : clamp_index (Z.of_nat (length l)) j
              = clamp_index (Z.of_nat (length l)) (Z.of_nat (length l))).
  { unfold clamp_index.
    destruct (Z.ltb_spec j 0); destruct (Z.ltb_spec (Z.of_nat (length l)) 0); lia. }
  now rewrite E.
Qed.

End SliceLaws.

Section DriverLaws.
Context {F : Type} `{Arith F} `{Render F}.

Local Abbreviation M := (@M F).
Local Abbreviation world := (@world F).
Local Abbreviation plot_cmd := (@plot_cmd F).
Local Abbreviation param_group := (@param_group F).
Local Abbreviation h5file := (@h5file F).
Local Abbreviation quiet := (quiet (F := F)).
Local Abbreviation harmless := (harmless (F := F)).

Lemma bind_run {A B} (c : M A) (k : A -> M B) (w : world) :
  bind c k w = match c w with
               | (Ok a, w') => k a w'
               | (Raise e, w') => (Raise e, w')
               end.
Proof. reflexivity. Qed.

Lemma quiet_bind {A B} (c : M A) (k : A -> M B) (a : A) (b : B) :
  quiet c a -> quiet (k a) b -> quiet (bind c k) b.
Proof.
  intros Hc Hk w. destruct (Hc w) as (w1 & E1 & F1 & G1).
  destruct (Hk w1) as (w2 & E2 & F2 & G2).
  exists w2. rewrite bind_run, E1, E2. repeat split; congruence.
Qed.

Lemma quiet_ret {A} (a : A) : quiet (ret a) a.
Proof. intros w. exists w. repeat split. Qed.

Lemma quiet_lookup {A} (o : option A) (a : A) : o = Some a -> quiet (lookup o) a.
Proof. intros ->. apply quiet_ret. Qed.

Lemma quiet_print (s : string) : quiet (print s) tt.
Proof. intros w. eexists. repeat split. Qed.

Lemma quiet_print_comma (s : string) : quiet (print_comma s) tt.
Proof. intros w. eexists. repeat split. Qed.

Lemma quiet_print_newline : quiet print_newline tt.
Proof. intros w. eexists. repeat split. Qed.

Lemma quiet_plotting (c : plot_cmd) : quiet (plotting c) tt.
Proof. intros w. eexists. repeat split. Qed.

(** Two sequences of one length are drawn. *)
Lemma plot_same_length (x y : list F) (style : string) (label : option string) :
  length x = length y -> plot x y style label = plotting (Plot x y style label).
Proof. intros E. unfold plot. now rewrite E, Nat.eqb_refl. Qed.

(** The line of the mean value has as many heights as it has times. *)
Lemma plot_mean_line (lo hi epot : F) (style : string) (label : option string) :
  plot (linspace lo hi 50)
       (map (fun z => f_add z epot) (map (fun _ => f_zero) (linspace lo hi 50)))
       style label
  = plotting (Plot (linspace lo hi 50)
                   (map (fun z => f_add z epot)
                        (map (fun _ => f_zero) (linspace lo hi 50)))
                   style label).
Proof. apply plot_same_length. now rewrite !length_map. Qed.

Lemma quiet_for_each {A} (l : list A) (body : A -> M unit) :
  (forall a, quiet (body a) tt) -> quiet (for_each l body) tt.
Proof.
  intros Hb. induction l as [|a l IH]; simpl.
  - apply quiet_ret.
  - eapply quiet_bind; [apply Hb|exact IH].
Qed.

Lemma quiet_lift {A} (r : result A) (a : A) : r = Ok a -> quiet (lift r) a.
Proof. intros ->. intros w. exists w. repeat split. Qed.

Lemma quiet_compute_average (data : list F) (label : string) (nblocks : Z)
      (r : F * F) :
  compute_average_value data nblocks = Ok r ->
  quiet (compute_average data label nblocks) r.
Proof.
  intros E. unfold compute_average.
  eapply quiet_bind; [apply quiet_lift; exact E|].
  eapply quiet_bind; [apply quiet_print|apply quiet_ret].
Qed.

Lemma quiet_print_details (pg : param_group)
      (particles force cutoff : string) (len : list F) (density : F) :
  box_particles pg = Some particles ->
  param_force pg = Some force ->
  force_cutoff pg force = Some cutoff ->
  box_length pg = Some len ->
  box_density pg = Some density ->
  quiet (print_details pg) tt.
Proof.
  intros E1 E2 E3 E4 E5. unfold print_details.
  eapply quiet_bind; [apply quiet_lookup; exact E1|].
  eapply quiet_bind; [apply quiet_print|].
  eapply quiet_bind; [apply quiet_lookup; exact E2|].
  eapply quiet_bind; [apply quiet_lookup; exact E3|].
  eapply quiet_bind; [apply quiet_print|].
  eapply quiet_bind; [apply quiet_print_comma|].
  eapply quiet_bind; [apply quiet_lookup; exact E4|].
  eapply quiet_bind;
    [apply quiet_for_each; intros; apply quiet_print_comma|].
  eapply quiet_bind; [apply quiet_print_newline|].
  eapply quiet_bind; [apply quiet_lookup; exact E5|].
  apply quiet_print.
Qed.

Lemma harmless_of_quiet {A} (c : M A) (a : A) : quiet c a -> harmless c.
Proof.
  intros Hc w. destruct (Hc w) as (w' & E & Hf & Hh).
  unfold after. rewrite E. simpl. split; assumption.
Qed.

Lemma harmless_bind {A B} (c : M A) (k : A -> M B) :
  harmless c -> (forall a, harmless (k a)) -> harmless (bind c k).
Proof.
  intros Hc Hk w. unfold after. rewrite bind_run.
  specialize (Hc w). unfold after in Hc.
  destruct (c w) as [[a|e] w1]; simpl in Hc.
  - specialize (Hk a w1). unfold after in Hk.
    destruct Hk as [Hf Hh]. destruct Hc as [Hf1 Hh1].
    split; congruence.
  - exact Hc.
Qed.

Lemma harmless_lift {A} (r : result A) : harmless (lift r).
Proof. intros w. split; reflexivity. Qed.

Lemma harmless_when (b : bool) (c : M unit) : harmless c -> harmless (when b c).
Proof.
  intros Hc. destruct b; [exact Hc|].
  apply (harmless_of_quiet _ tt), quiet_ret.
Qed.

Lemma harmless_plotting (c : plot_cmd) : harmless (plotting c).
Proof. apply (harmless_of_quiet _ tt), quiet_plotting. Qed.

Lemma harmless_raise {A} (e : exn) : harmless (raise e : M A).
Proof. intros w. split; reflexivity. Qed.

Lemma harmless_plot (x y : list F) (style : string) (label : option string) :
  harmless (plot x y style label).
Proof.
  unfold plot. destruct (Nat.eqb _ _);
    [apply harmless_plotting|apply harmless_raise].
Qed.

Lemma harmless_plot_mean_value (x : list F) (epot : F) :
  harmless (plot_mean_value x epot).
Proof.
  unfold plot_mean_value.
  apply harmless_bind; [apply harmless_lift|intros lo].
  apply harmless_bind; [apply harmless_lift|intros hi].
  apply harmless_plot.
Qed.

Lemma harmless_finalise_plot : harmless finalise_plot.
Proof.
  unfold finalise_plot.
  repeat (apply harmless_bind; [apply harmless_plotting|intros _]).
  apply harmless_plotting.
Qed.

(** *** Appending to the dump file *)

Local Open Scope string_scope.

Lemma string_app_assoc (a b c : string) : (a ++ b) ++ c = a ++ (b ++ c).
Proof. induction a as [|ch a IH]; simpl; [reflexivity|now rewrite IH]. Qed.

Lemma string_app_empty (a : string) : a ++ EmptyString = a.
Proof. induction a as [|ch a IH]; simpl; [reflexivity|now rewrite IH]. Qed.

Lemma append_agree (f t : string) (fs1 fs2 : string -> option string) :
  agree fs1 fs2 -> agree (append f t fs1) (append f t fs2).
Proof.
  intros E p. unfold append, contents. rewrite (E f), (E p). reflexivity.
Qed.

Lemma append_append (f t1 t2 : string) (fs : string -> option string) :
  agree (append f t2 (append f t1 fs)) (append f (t1 ++ t2) fs).
Proof.
  intros p. unfold append, contents. rewrite String.eqb_refl.
  destruct (String.eqb p f); [|reflexivity].
  now rewrite string_app_assoc.
Qed.

Lemma write_rows_agree (f : string) (rows : list (F * F))
      (fs1 fs2 : string -> option string) :
  agree fs1 fs2 -> agree (write_rows f rows fs1) (write_rows f rows fs2).
Proof.
  revert fs1 fs2; induction rows as [|r rows IH]; intros fs1 fs2 E.
  - exact E.
  - simpl. apply IH, append_agree, E.
Qed.

Lemma write_rows_append (f : string) (rows : list (F * F)) (t : string)
      (fs : string -> option string) :
  agree (write_rows f rows (append f t fs))
        (append f (t ++ join (map savetxt_row rows)) fs).
Proof.
  revert t; induction rows as [|r rows IH]; intros t p.
  - simpl. now rewrite string_app_empty.
  - simpl.
    rewrite (write_rows_agree f rows _ _ (append_append f t (savetxt_row r) fs)).
    rewrite IH. now rewrite string_app_assoc.
Qed.

Lemma savetxt_run (f : string) (rows : list (F * F)) (w : world) :
  exists w', savetxt f (Rows rows) w = (Ok tt, w') /\
             files w' = write_rows f rows (files w) /\
             h5files w' = h5files w.
Proof.
  revert w; induction rows as [|r rows IH]; intros w.
  - exists w. repeat split.
  - unfold savetxt in *. cbn [for_each]. rewrite bind_run.
    unfold write_append at 1.
    destruct (IH (set_files (append f (savetxt_row r) (files w)) w))
      as (w' & E & Hf & Hh).
    exists w'. rewrite E. repeat split; assumption.
Qed.

(** The dump phase looks at nothing but the text files: what it returns is
    fixed by the arguments and the two series, and the files it leaves are
    a function of the files it finds. *)
Lemma append_plot_data_shape (dump : option string) (x y : list F) :
  exists (r : result unit) (g : (string -> option string) -> string -> option string),
  forall (range : option (Z * Z)) (no_plot : bool) (input : string) (w : world),
    let c := append_plot_data {| arg_range := range; arg_dump := dump;
                                 arg_no_plot := no_plot; arg_input := input |} x y in
    returned c w = r /\ files (after c w) = g (files w) /\
    h5files (after c w) = h5files w.
Proof.
  unfold append_plot_data, dump_target, returned, after. cbn [arg_dump].
  destruct dump as [[|ch f]|].
  - exists (Ok tt), (fun fs => fs). intros; repeat split.
  - set (path := String ch f).
    destruct (columns x y) as [rows|x' y'].
    + exists (Ok tt),
        (fun fs => append path (nl ++ nl)
                     (write_rows path rows (append path (dump_header ++ nl) fs))).
      intros range no_plot input w. cbv zeta.
      destruct (savetxt_run path rows
                  (set_files (append path (dump_header ++ nl) (files w)) w))
        as (w' & E & Hf & Hh).
      unfold bind, print_to, write_append. cbv beta iota.
      rewrite E. cbn [fst snd set_files files h5files].
      rewrite Hf, Hh. repeat split.
    + exists (Raise TypeError), (fun fs => append path (dump_header ++ nl) fs).
      intros; repeat split.
  - exists (Ok tt), (fun fs => fs). intros; repeat split.
Qed.

Lemma quiet_when (b : bool) (c : M unit) : quiet c tt -> quiet (when b c) tt.
Proof. intros Hc. destruct b; [exact Hc|apply quiet_ret]. Qed.

(** For two series of one length the first plot is accepted, and the text
    files that the last four statements leave are a function of the files
    they find, the same with and without [--no-plot]. *)
Lemma plot_and_dump_files (range : option (Z * Z)) (dump : option string)
      (input : string) (x y : list F) (epot : F) :
  length x = length y ->
  exists g : (string -> option string) -> string -> option string,
  forall (no_plot : bool) (w : world),
    files (after (plot_and_dump {| arg_range := range; arg_dump := dump;
                                   arg_no_plot := no_plot; arg_input := input |}
                                x y epot) w) = g (files w).
Proof.
  intros Hlen.
  destruct (append_plot_data_shape dump x y) as (r & g & Hs).
  exists g. intros no_plot w. unfold plot_and_dump, after.
  cbn [arg_no_plot arg_input]. rewrite (plot_same_length _ _ _ _ Hlen).
  destruct (quiet_when (negb no_plot) _
              (quiet_plotting (Plot x y "-b" (Some input))) w)
    as (w1 & E1 & F1 & _).
  rewrite bind_run, E1, bind_run.
  destruct (Hs range no_plot input w1) as (Hr & Hf & _).
  unfold returned, after in Hr, Hf.
  destruct (append_plot_data _ x y w1) as [[u|e] w2]; simpl in Hr, Hf.
  - assert (Hrest : harmless
              (bind (when (negb no_plot) (plot_mean_value x epot))
                    (fun _ => when (negb no_plot) finalise_plot))).
    { apply harmless_bind.
      - apply harmless_when, harmless_plot_mean_value.
      - intros _. apply harmless_when, harmless_finalise_plot. }
    destruct (Hrest w2) as [Hf2 _]. unfold after in Hf2.
    rewrite Hf2. congruence.
  - simpl. congruence.
Qed.

(** *** A run on a complete file *)

Lemma select_length (range : Z * Z) (l1 l2 : list F) :
  length l1 = length l2 -> length (select range l1) = length (select range l2).
Proof.
  intros E. unfold select, py_slice.
  rewrite !length_firstn, !length_skipn, E. reflexivity.
Qed.

Lemma dump_rows_length (x y : list F) :
  length x = length y -> length (dump_rows x y) = length x.
Proof.
  intros E. unfold dump_rows. rewrite length_map, length_combine. lia.
Qed.

Lemma agree_trans (fs1 fs2 fs3 : string -> option string) :
  agree fs1 fs2 -> agree fs2 fs3 -> agree fs1 fs3.
Proof. intros E1 E2 p. now rewrite E1. Qed.

Lemma append_plot_data_run (args : arguments) (x y : list F) (w : world) :
  length x = length y ->
  exists w',
    append_plot_data args x y w = (Ok tt, w') /\
    agree (files w')
          (match dump_target args with
           | Some path => append path (dump_block x y) (files w)
           | None => files w
           end) /\
    h5files w' = h5files w.
Proof.
  intros Hlen. unfold append_plot_data.
  destruct (dump_target args) as [path|].
  - unfold columns. rewrite Hlen, Nat.eqb_refl.
    destruct (savetxt_run path (combine x y)
                (set_files (append path (dump_header ++ nl) (files w)) w))
      as (w' & E & Hf & Hh).
    unfold bind, print_to, write_append. cbv beta iota.
    rewrite E. eexists. split; [reflexivity|].
    cbn [set_files files h5files]. rewrite Hf, Hh.
    split; [|reflexivity].
    cbn [set_files files].
    eapply agree_trans;
      [apply append_agree, write_rows_append|].
    eapply agree_trans; [apply append_append|].
    intros p. unfold dump_block, dump_rows.
    now rewrite !string_app_assoc.
  - exists w. repeat split.
Qed.

Lemma quiet_plot_mean_value (a : F) (x : list F) (epot : F) :
  quiet (plot_mean_value (a :: x) epot) tt.
Proof.
  unfold plot_mean_value.
  eapply quiet_bind; [apply quiet_lift; reflexivity|].
  eapply quiet_bind; [apply quiet_lift; reflexivity|].
  cbv zeta. rewrite plot_mean_line. apply quiet_plotting.
Qed.

Lemma quiet_finalise_plot : quiet finalise_plot tt.
Proof.
  unfold finalise_plot.
  repeat (eapply quiet_bind; [apply quiet_plotting|]).
  apply quiet_plotting.
Qed.

(** What the last four statements do, for two series of one length: the
    dump is written whatever the plotting does, and the only exception is
    the one that [min] raises on an empty series when plotting is on. *)
Lemma plot_and_dump_run (args : arguments) (x y : list F) (epot : F)
      (w : world) :
  length x = length y ->
  exists w',
    plot_and_dump args x y epot w
    = (if arg_no_plot args then Ok tt
       else match x with [] => Raise ValueError | _ :: _ => Ok tt end, w') /\
    agree (files w')
          (match dump_target args with
           | Some path => append path (dump_block x y) (files w)
           | None => files w
           end) /\
    h5files w' = h5files w.
Proof.
  intros Hlen. unfold plot_and_dump. rewrite (plot_same_length _ _ _ _ Hlen).
  destruct (quiet_when (negb (arg_no_plot args)) _
              (quiet_plotting (Plot x y "-b" (Some (arg_input args)))) w)
    as (w1 & E1 & F1 & G1).
  rewrite bind_run, E1.
  destruct (append_plot_data_run args x y w1 Hlen) as (w2 & E2 & F2 & G2).
  rewrite bind_run, E2. rewrite F1 in F2. rewrite G1 in G2.
  destruct (arg_no_plot args); cbn [negb when].
  - exists w2. repeat split; assumption.
  - destruct x as [|a x].
    + exists w2. repeat split; assumption.
    + destruct (quiet_bind _ (fun _ => finalise_plot) tt tt
                  (quiet_plot_mean_value a x epot) quiet_finalise_plot w2)
        as (w3 & E3 & F3 & G3).
      rewrite E3. exists w3. rewrite F3, G3. repeat split; assumption.
Qed.

Lemma compute_average_default (data : list F) :
  exists r, compute_average_value data default_nblocks = Ok r.
Proof.
  eexists. apply compute_average_value_blocks. reflexivity.
Qed.

Ltac run Hq R :=
  rewrite bind_run in R;
  match type of R with
  | context [match ?c ?w with pair _ _ => _ end] =>
      let w' := fresh "w" in
      let E := fresh "E" in
      let Hf := fresh "Hf" in
      let Hh := fresh "Hh" in
      destruct (Hq w) as (w' & E & Hf & Hh);
      rewrite E in R; cbv beta iota zeta in R
  end.

(** On a complete file, everything before the first plot succeeds and
    leaves the files alone. *)
Lemma main_prefix (args : arguments) (w : world) (f : h5file)
      (temp press epot time : list F) :
  h5files w (arg_input args) = Some f ->
  complete f temp press epot time ->
  exists (w1 : world) (e : F * F),
    compute_average_value (select (range_of args) epot) default_nblocks = Ok e /\
    main args w
    = plot_and_dump args (select (range_of args) time)
                    (select (range_of args) epot) (fst e) w1 /\
    files w1 = files w /\ h5files w1 = h5files w.
Proof.
  intros Hopen ((pg & particles & force & cutoff & len & density
                 & Hpg & E1 & E2 & E3 & E4 & E5) & Htemp & Hpress & Hepot & Htime).
  destruct (compute_average_default (select (range_of args) temp)) as (rt & Et).
  destruct (compute_average_default (select (range_of args) press)) as (rp & Ep).
  destruct (compute_average_default (select (range_of args) epot)) as (re & Ee).
  pose proof (eq_refl (main args w)) as R.
  unfold main at 2 in R. cbv zeta in R.
  rewrite bind_run in R. unfold h5_open at 1 in R. rewrite Hopen in R.
  cbv beta iota in R.
  run (quiet_lookup _ _ Hpg) R.
  run (quiet_print_details pg _ _ _ _ _ E1 E2 E3 E4 E5) R.
  run (quiet_lookup _ _ Htemp) R.
  run (quiet_compute_average _ "Temperature" _ _ Et) R.
  run (quiet_lookup _ _ Hpress) R.
  run (quiet_compute_average _ "Pressure" _ _ Ep) R.
  run (quiet_lookup _ _ Hepot) R.
  run (quiet_compute_average _ "Potential energy" _ _ Ee) R.
  run (quiet_lookup _ _ Htime) R.
  run (quiet_lookup _ _ Hepot) R.
  match type of R with
  | _ = _ ?wl => exists wl, re
  end.
  split; [exact Ee|]. split; [exact R|].
  split; congruence.
Qed.

Lemma main_run (args : arguments) (w : world) (f : h5file)
      (temp press epot time : list F) :
  h5files w (arg_input args) = Some f ->
  complete f temp press epot time ->
  length time = length epot ->
  let x := select (range_of args) time in
  let y := select (range_of args) epot in
  returned (main args) w
  = (if arg_no_plot args then Ok tt
     else match x with [] => Raise ValueError | _ :: _ => Ok tt end) /\
  agree (files (after (main args) w))
        (match dump_target args with
         | Some path => append path (dump_block x y) (files w)
         | None => files w
         end) /\
  h5files (after (main args) w) = h5files w.
Proof.
  intros Hopen Hc Hlen x y.
  destruct (main_prefix args w f temp press epot time Hopen Hc)
    as (w1 & e & _ & R & Hf & Hh).
  destruct (plot_and_dump_run args x y (fst e) w1
              (select_length _ _ _ Hlen)) as (w2 & E & Hf2 & Hh2).
  unfold returned, after. fold x y in R. rewrite R, E. cbn [fst snd].
  rewrite Hf in Hf2. rewrite Hh in Hh2. repeat split; assumption.
Qed.

(** [compute_average] returns what [compute_average_value] computes; the
    line it prints does not enter into it. *)
Lemma compute_average_returns (data : list F) (label : string) (nblocks : Z)
      (w : world) :
  returned (compute_average data label nblocks) w
  = compute_average_value data nblocks.
Proof.
  unfold returned, compute_average. rewrite bind_run. unfold lift.
  destruct (compute_average_value data nblocks); reflexivity.
Qed.

(** *** The analysis and the last four statements *)

Lemma bind_raise_inv {A B} (c : M A) (k : A -> M B) (w w' : world) (e : exn) :
  bind c k w = (Raise e, w') ->
  c w = (Raise e, w') \/
  exists a w1, c w = (Ok a, w1) /\ k a w1 = (Raise e, w').
Proof.
  rewrite bind_run. destruct (c w) as [[a|e1] w1]; intros E.
  - right. now exists a, w1.
  - left. inversion E. reflexivity.
Qed.

Ltac split_step :=
  rewrite !bind_run;
  match goal with
  | |- match ?X with pair _ _ => _ end = _ =>
      destruct X as [[?|?] ?]; cbv beta iota zeta; [|reflexivity]
  end.

(** [main] is the analysis followed by the last four statements. *)
Lemma main_split (args : arguments) (w : world) :
  main args w
  = bind (analysis (range_of args) (arg_input args))
         (fun r => plot_and_dump args (fst (fst r)) (snd (fst r)) (snd r)) w.
Proof.
  unfold main, analysis. cbv zeta.
  do 11 split_step.
  reflexivity.
Qed.

Lemma lookup_ok_inv {A} (o : option A) (a : A) (w w' : world) :
  lookup o w = (Ok a, w') -> o = Some a.
Proof. destruct o; simpl; intros E; inversion E; reflexivity. Qed.

Ltac inv_step R :=
  rewrite bind_run in R;
  match type of R with
  | context [match ?X with pair _ _ => _ end] =>
      let E := fresh "E" in
      destruct X as [[?|?] ?] eqn:E; [|discriminate R];
      cbv beta iota zeta in R
  end.

Lemma print_details_ok_inv (pg : param_group) (u : unit) (w w' : world) :
  print_details pg w = (Ok u, w') ->
  exists particles force cutoff len density,
    box_particles pg = Some particles /\
    param_force pg = Some force /\
    force_cutoff pg force = Some cutoff /\
    box_length pg = Some len /\
    box_density pg = Some density.
Proof.
  intros R. unfold print_details in R.
  do 10 inv_step R.
  repeat match goal with
         | E : lookup _ _ = (Ok _, _) |- _ => apply lookup_ok_inv in E
         end.
  eauto 10.
Qed.

(** A successful analysis has read a complete file, and the two series it
    yields are the selected times and potential energies. *)
Lemma analysis_ok_inv (range : Z * Z) (input : string)
      (r : list F * list F * F) (w w' : world) :
  analysis range input w = (Ok r, w') ->
  exists f temp press epot time,
    h5files w input = Some f /\ complete f temp press epot time /\
    fst (fst r) = select range time /\ snd (fst r) = select range epot.
Proof.
  intros R. unfold analysis in R.
  rewrite bind_run in R. unfold h5_open at 1 in R.
  destruct (h5files w input) as [f|] eqn:Hopen; [|discriminate R].
  cbv beta iota in R.
  do 10 inv_step R.
  repeat match goal with
         | E : lookup _ _ = (Ok _, _) |- _ => apply lookup_ok_inv in E
         | E : print_details _ _ = (Ok _, _) |- _ =>
             apply print_details_ok_inv in E;
             destruct E as (particles & force & cutoff & len & density & E)
         end.
  unfold ret in R. inversion R; subst r. cbn [fst snd].
  match goal with
  | E1 : h5_dataset f "EPOT" = Some ?a, E2 : h5_dataset f "EPOT" = Some ?b |- _ =>
      assert (b = a) as -> by congruence
  end.
  exists f. unfold complete. eauto 20.
Qed.

(** For an input whose TIME and EPOT datasets have one length, the text
    files a run leaves do not depend on [--no-plot]. *)
Lemma main_files_independent (range : option (Z * Z)) (dump : option string)
      (input : string) (w : world) :
  (forall f time epot,
      h5files w input = Some f ->
      h5_dataset f "TIME" = Some time ->
      h5_dataset f "EPOT" = Some epot ->
      length time = length epot) ->
  exists fs : string -> option string,
  forall no_plot : bool,
    files (after (main {| arg_range := range; arg_dump := dump;
                          arg_no_plot := no_plot; arg_input := input |}) w)
    = fs.
Proof.
  intros Hlen.
  set (rg := range_of {| arg_range := range; arg_dump := dump;
                         arg_no_plot := true; arg_input := input |}).
  destruct (analysis rg input w) as [[r|e] w1] eqn:R.
  - destruct (analysis_ok_inv _ _ _ _ _ R)
      as (f & temp & press & epot & time & Hopen & Hc & Hx & Hy).
    destruct Hc as (_ & _ & _ & Hepot & Htime).
    assert (Hxy : length (fst (fst r)) = length (snd (fst r))).
    { rewrite Hx, Hy. apply select_length.
      exact (Hlen f time epot Hopen Htime Hepot). }
    destruct (plot_and_dump_files range dump input _ _ (snd r) Hxy)
      as (g & Hg).
    exists (g (files w1)). intros no_plot.
    unfold after. rewrite main_split, bind_run.
    change (range_of _) with rg. cbn [arg_input]. rewrite R.
    apply (Hg no_plot w1).
  - exists (files w1). intros no_plot.
    unfold after. rewrite main_split, bind_run.
    change (range_of _) with rg. cbn [arg_input]. now rewrite R.
Qed.

(** C8, as the program has it: with [--dump path], a run on a complete
    file adds to the file the line [# time   E_pot(t)], one row per
    selected sample with the time and the potential energy in [%.18e]
    separated by one space, and then two empty lines (not one); the block
    goes after what the file held, so that a second run leaves the block
    twice. *)
Theorem dump_appends_block (args : arguments) (path : string) (w : world)
        (f : h5file) (temp press epot time : list F) :
  dump_target args = Some path ->
  h5files w (arg_input args) = Some f ->
  complete f temp press epot time ->
  length time = length epot ->
  let x := select (range_of args) time in
  let y := select (range_of args) epot in
  let w1 := after (main args) w in
  let w2 := after (main args) w1 in
  length (dump_rows x y) = length x /\
  files w1 path
  = Some (contents (files w) path
          ++ dump_header ++ nl ++ join (dump_rows x y) ++ nl ++ nl) /\
  files w2 path
  = Some (contents (files w) path ++ dump_block x y ++ dump_block x y).
Proof.
  intros Hd Hopen Hc Hlen x y w1 w2.
  destruct (main_run args w f temp press epot time Hopen Hc Hlen)
    as (_ & Hf1 & Hh1).
  fold x y w1 in Hf1, Hh1. rewrite Hd in Hf1.
  assert (Hopen1 : h5files w1 (arg_input args) = Some f) by congruence.
  destruct (main_run args w1 f temp press epot time Hopen1 Hc Hlen)
    as (_ & Hf2 & _).
  fold x y w2 in Hf2. rewrite Hd in Hf2.
  assert (E1 : files w1 path = Some (contents (files w) path ++ dump_block x y)).
  { rewrite (Hf1 path). unfold append. now rewrite String.eqb_refl. }
  split; [apply dump_rows_length, select_length, Hlen|].
  split; [exact E1|].
  rewrite (Hf2 path). unfold append. rewrite String.eqb_refl.
  unfold contents at 1. rewrite E1. now rewrite string_app_assoc.
Qed.

(** C6, as the program has it: no range makes the run fail by being out
    of bounds.  A bound past the end of a series stands for the end, and
    on a complete file the run returns normally for every range; the one
    exception is raised by [min] when plotting is on and the selection is
    empty. *)
Theorem out_of_bounds_range_is_clamped (args : arguments) (w : world)
        (f : h5file) (temp press epot time : list F) :
  h5files w (arg_input args) = Some f ->
  complete f temp press epot time ->
  length time = length epot ->
  (forall (d : list F) (i j : Z),
      Z.of_nat (length d) <= j ->
      select (i, j) d = select (i, Z.of_nat (length d)) d) /\
  returned (main args) w
  = (if arg_no_plot args then Ok tt
     else match select (range_of args) time with
          | [] => Raise ValueError
          | _ :: _ => Ok tt
          end).
Proof.
  intros Hopen Hc Hlen. split.
  - intros d i j Hj. unfold select. cbn [fst snd]. now apply py_slice_beyond.
  - apply (main_run args w f temp press epot time Hopen Hc Hlen).
Qed.

End DriverLaws.

(** C10, as the program has it: for an input file whose TIME and EPOT
    datasets have one length (if it opens and holds them), [--no-plot] has
    no influence on the dump.  For the same input file, range and dump
    path, and from the same state of the file system, the text files are
    the same after a run with the flag and after a run without it. *)
Theorem no_plot_leaves_dump_unchanged
        {F : Type} `{Arith F} `{Render F}
        (range : option (Z * Z)) (dump : option string) (input : string)
        (w : @world F) :
  (forall f time epot,
      h5files w input = Some f ->
      h5_dataset f "TIME"%string = Some time ->
      h5_dataset f "EPOT"%string = Some epot ->
      length time = length epot) ->
  files (after (main {| arg_range := range; arg_dump := dump;
                        arg_no_plot := true; arg_input := input |}) w)
  = files (after (main {| arg_range := range; arg_dump := dump;
                          arg_no_plot := false; arg_input := input |}) w).
Proof.
  intros Hlen.
  destruct (main_files_independent range dump input w Hlen) as (fs & Hfs).
  now rewrite (Hfs true), (Hfs false).
Qed.

(** ** Runs on the sample file *)

Section SampleRuns.

Local Open Scope string_scope.

Lemma sample_file_complete :
  complete sample_file
           (series [1; 2; 1; 2; 1; 2; 1; 2; 1; 2; 1; 2])
           (series [3; 3; 3; 3; 3; 3; 3; 3; 3; 3; 3; 3])
           (series [-5; -4; -6; -5; -4; -6; -5; -4; -6; -5; -4; 7])
           (series [0; 1; 2; 3; 4; 5; 6; 7; 8; 9; 10; 11]).
Proof.
  split.
  - exists sample_param, "1000", "lennard_jones", "2.5",
      (series [10; 10; 10]), (f_div (b64_of_Z 3) (b64_of_Z 4)).
    repeat split.
  - repeat split.
Qed.

Lemma dump_appends_block_witness :
  (dump_target (dump_args (Some (0, 2))) = Some "out.txt" /\
   h5files sample_world (arg_input (dump_args (Some (0, 2)))) = Some sample_file) /\
  sample_dump (Some (0, 2))
  = Some ("# time   E_pot(t)" ++ nl ++ sample_rows ++ nl ++ nl) /\
  files (after (main (dump_args (Some (0, 2))))
               (after (main (dump_args (Some (0, 2)))) sample_world)) "out.txt"
  = Some (("# time   E_pot(t)" ++ nl ++ sample_rows ++ nl ++ nl)
          ++ "# time   E_pot(t)" ++ nl ++ sample_rows ++ nl ++ nl).
Proof.
  split; [split; reflexivity|].
  destruct (dump_appends_block (dump_args (Some (0, 2))) "out.txt"
              sample_world sample_file
              _ _ _ _ eq_refl eq_refl sample_file_complete eq_refl)
    as (_ & E1 & E2).
  split; [exact E1|exact E2].
Defined.

Lemma sample_file_same_length (f : @h5file binary64) (time epot : list binary64) :
  h5files sample_world "run.h5" = Some f ->
  h5_dataset f "TIME" = Some time ->
  h5_dataset f "EPOT" = Some epot ->
  length time = length epot.
Proof.
  intros Hf Ht He. cbn in Hf. inversion Hf; subst f.
  cbn in Ht, He. inversion Ht; inversion He. reflexivity.
Qed.

Lemma no_plot_leaves_dump_unchanged_witness :
  (forall f time epot,
      h5files sample_world "run.h5" = Some f ->
      h5_dataset f "TIME" = Some time ->
      h5_dataset f "EPOT" = Some epot ->
      length time = length epot) /\
  files (after (main (sample_args (Some (0, 2)) (Some "out.txt") true))
               sample_world) "out.txt"
  = Some ("# time   E_pot(t)" ++ nl ++ sample_rows ++ nl ++ nl) /\
  files (after (main (sample_args (Some (0, 2)) (Some "out.txt") false))
               sample_world) "out.txt"
  = Some ("# time   E_pot(t)" ++ nl ++ sample_rows ++ nl ++ nl).
Proof.
  split; [exact sample_file_same_length|].
  rewrite <- (no_plot_leaves_dump_unchanged
                (Some (0, 2)) (Some "out.txt") "run.h5" sample_world
                sample_file_same_length).
  split; vm_compute; reflexivity.
Defined.

(** A file with thirteen times and twelve potential energies, dumped to a
    file that does not exist yet.  With [--no-plot] the run writes the header
    line and stops in [savetxt], which finds no two-dimensional array;
    without it the run stops before, at the first [plot], and the dump file
    is not even created. *)
Lemma no_plot_changes_dump_of_ragged_series :
  files (after (main (sample_args None (Some "out.txt") true)) ragged_world)
        "out.txt"
  = Some ("# time   E_pot(t)" ++ nl) /\
  returned (main (sample_args None (Some "out.txt") true)) ragged_world
  = Raise TypeError /\
  files (after (main (sample_args None (Some "out.txt") false)) ragged_world)
        "out.txt"
  = None /\
  returned (main (sample_args None (Some "out.txt") false)) ragged_world
  = Raise ValueError /\
  files (after (main (sample_args None (Some "out.txt") true)) ragged_world)
  <> files (after (main (sample_args None (Some "out.txt") false)) ragged_world).
Proof.
  assert (E1 : files (after (main (sample_args None (Some "out.txt") true))
                            ragged_world) "out.txt"
               = Some ("# time   E_pot(t)" ++ nl))
    by (vm_compute; reflexivity).
  assert (E2 : files (after (main (sample_args None (Some "out.txt") false))
                            ragged_world) "out.txt" = None)
    by (vm_compute; reflexivity).
  split; [exact E1|].
  split; [vm_compute; reflexivity|].
  split; [exact E2|].
  split; [vm_compute; reflexivity|].
  intros E. rewrite E, E2 in E1. discriminate E1.
Qed.

(** One run with [--dump out.txt --range 0 2 --no-plot] into a new file:
    the two rows are followed by two empty lines, so the file is not the
    header, the rows and one empty line. *)
Lemma dump_ends_with_two_empty_lines :
  sample_dump (Some (0, 2))
  = Some ("# time   E_pot(t)" ++ nl ++ sample_rows ++ nl ++ nl) /\
  sample_dump (Some (0, 2))
  <> Some ("# time   E_pot(t)" ++ nl ++ sample_rows ++ nl).
Proof.
  split.
  - vm_compute. reflexivity.
  - vm_compute. discriminate.
Qed.

Lemma out_of_bounds_range_is_clamped_witness :
  h5files sample_world (arg_input (sample_args (Some (100, 200)) None true))
  = Some sample_file /\
  returned (main (sample_args (Some (100, 200)) None true)) sample_world = Ok tt.
Proof.
  split; [reflexivity|].
  exact (proj2 (out_of_bounds_range_is_clamped
                  (sample_args (Some (100, 200)) None true)
                  sample_world sample_file
                  _ _ _ _ eq_refl sample_file_complete eq_refl)).
Defined.

(** Twelve samples are loaded.  With [--range 0 1000] the run, plotting
    included, returns normally and plots all twelve; with
    [--range 100 200 --no-plot] it returns normally too, having reported
    NaN for the three averages. *)
Lemma out_of_bounds_range_proceeds :
  returned (main (sample_args (Some (0, 1000)) None false)) sample_world = Ok tt /\
  hd_error (figure (after (main (sample_args (Some (0, 1000)) None false))
                          sample_world))
  = Some (Plot (series [0; 1; 2; 3; 4; 5; 6; 7; 8; 9; 10; 11])
               (series [-5; -4; -6; -5; -4; -6; -5; -4; -6; -5; -4; 7])
               "-b" (Some "run.h5")) /\
  returned (main (sample_args (Some (100, 200)) None true)) sample_world = Ok tt.
Proof. repeat split; vm_compute; reflexivity. Qed.

(** No function of the reduced pair and of the bounds gives the reduction
    of the selected range: two series with the same averages over the
    whole have different averages over samples 1 to 10. *)
Lemma reduction_of_range_not_from_reduction_of_whole :
  ~ exists restrict : result (binary64 * binary64) -> Z -> Z
                      -> result (binary64 * binary64),
      forall (s : list binary64) (i j : Z),
        0 <= i <= j -> j <= Z.of_nat (length s) ->
        compute_average_value (select (i, j) s) default_nblocks
        = restrict (compute_average_value s default_nblocks) i j.
Proof.
  intros (restrict & Hr).
  pose proof (Hr (series [0; 1; 2; 3; 4; 5; 6; 7; 8; 9; 10]) 1 11
                 ltac:(lia) ltac:(vm_compute; discriminate)) as H1.
  pose proof (Hr (series [0; 1; 2; 3; 4; 5; 6; 7; 8; 9; 20]) 1 11
                 ltac:(lia) ltac:(vm_compute; discriminate)) as H2.
  assert (E : compute_average_value (series [0; 1; 2; 3; 4; 5; 6; 7; 8; 9; 10])
                                    default_nblocks
              = compute_average_value (series [0; 1; 2; 3; 4; 5; 6; 7; 8; 9; 20])
                                      default_nblocks)
    by (vm_compute; reflexivity).
  rewrite E, <- H2 in H1. vm_compute in H1. discriminate H1.
Qed.

(** C2, on the sample file: without [--range] the range is (0, -1), and
    what is selected is the series without its last sample.  Of the twelve
    recorded steps the dump holds eleven, as for [--range 0 11], and not
    the twelve of [--range 0 12]. *)
Theorem default_range_drops_last_sample :
  range_of (dump_args None) = (0, -1) /\
  (forall d : list binary64, select (0, -1) d = removelast d) /\
  select (0, -1) (series [0; 1; 2; 3; 4; 5; 6; 7; 8; 9; 10; 11])
  = series [0; 1; 2; 3; 4; 5; 6; 7; 8; 9; 10] /\
  sample_dump None = sample_dump (Some (0, 11)) /\
  sample_dump None <> sample_dump (Some (0, 12)).
Proof.
  split; [reflexivity|].
  split; [intros d; apply py_slice_0_minus1|].
  split; [vm_compute; reflexivity|].
  split; [vm_compute; reflexivity|].
  vm_compute. discriminate.
Qed.

End SampleRuns.

(** * Further properties *)

(** ** [compute_average]: what it raises, what it prints *)

Section ReducerOutcomes.
Context {F : Type} `{Arith F} `{Render F}.

Local Abbreviation world := (@world F).
Local Open Scope string_scope.

Lemma compute_average_value_cases (data : list F) (nblocks : Z) :
  compute_average_value data nblocks
  = if (nblocks =? 0)%Z then Raise ZeroDivisionError
    else if (nblocks <? 0)%Z then Raise ValueError
    else Ok (mean (retained data nblocks),
             f_div (std (block_means data nblocks))
                   (f_sqrt (f_of_Z (nblocks - 1)))).
Proof.
  destruct (Z.eqb_spec nblocks 0) as [->|Hn0]; [reflexivity|].
  destruct (Z.ltb_spec nblocks 0) as [Hneg|Hpos].
  - unfold compute_average_value, py_floordiv.
    destruct (Z.eqb_spec nblocks 0) as [?|_]; [contradiction|].
    cbn [result_bind]. unfold reshape_rows.
    destruct (Z.ltb_spec nblocks 0) as [_|?]; [reflexivity|lia].
  - apply compute_average_value_blocks. lia.
Qed.

Lemma compute_average_run (data : list F) (label : string)
      (nblocks : Z) (w : world) :
  compute_average data label nblocks w
  = if (nblocks =? 0)%Z then (Raise ZeroDivisionError, w)
    else if (nblocks <? 0)%Z then (Raise ValueError, w)
    else
      let r := (mean (retained data nblocks),
                f_div (std (block_means data nblocks))
                      (f_sqrt (f_of_Z (nblocks - 1)))) in
      (Ok r,
       set_stdout (stdout w ++ soft w
                   ++ (label ++ ": " ++ fmt_fixed4 (fst r) ++ " "
                       ++ plus_minus ++ " " ++ fmt_general2 (snd r))
                   ++ nl) false w).
Proof.
  unfold compute_average. rewrite bind_run. unfold lift.
  rewrite compute_average_value_cases.
  destruct (nblocks =? 0)%Z; [reflexivity|].
  destruct (nblocks <? 0)%Z; reflexivity.
Qed.

(** A call of [compute_average] with no blocks raises ZeroDivisionError and
    one with a negative number of blocks raises ValueError, both before
    anything is printed; with a positive number of blocks the call returns,
    having printed the one line [label: mean ± error]. *)
Theorem compute_average_outcomes (data : list F) (label : string)
        (nblocks : Z) (w : world) :
  compute_average data label nblocks w
  = if (nblocks =? 0)%Z then (Raise ZeroDivisionError, w)
    else if (nblocks <? 0)%Z then (Raise ValueError, w)
    else
      let r := (mean (retained data nblocks),
                f_div (std (block_means data nblocks))
                      (f_sqrt (f_of_Z (nblocks - 1)))) in
      (Ok r,
       set_stdout (stdout w ++ soft w
                   ++ (label ++ ": " ++ fmt_fixed4 (fst r) ++ " "
                       ++ plus_minus ++ " " ++ fmt_general2 (snd r))
                   ++ nl) false w).
Proof. apply compute_average_run. Qed.

End ReducerOutcomes.

(** ** The estimator in exact arithmetic *)

Section RealEstimator.

Local Open Scope R_scope.

Lemma sum_app_real (a b : list R) : sum (a ++ b) = sum a + sum b.
Proof.
  unfold sum. cbn [f_add f_zero real_arith]. rewrite fold_left_app.
  rewrite (fold_Rplus_shift b (fold_left Rplus a 0)). reflexivity.
Qed.

Lemma sum_cons_real (x : R) (l : list R) : sum (x :: l) = x + sum l.
Proof. change (x :: l) with ([x] ++ l). rewrite sum_app_real. unfold sum at 1. simpl. ring. Qed.

Lemma sum_map_div_real {A} (f : A -> R) (c : R) (l : list A) :
  sum (map (fun a => f a / c) l) = sum (map f l) / c.
Proof.
  induction l as [|a l IH]; simpl map.
  - unfold sum. simpl. unfold Rdiv. ring.
  - rewrite !sum_cons_real, IH. unfold Rdiv. ring.
Qed.

Lemma sum_blocks_real (c n : nat) (l : list R) :
  length l = (n * c)%nat -> sum (map sum (blocks c n l)) = sum l.
Proof.
  revert l; induction n as [|n IH]; intros l Hl.
  - destruct l; [reflexivity|discriminate].
  - cbn [blocks map]. rewrite sum_cons_real, IH.
    + rewrite <- sum_app_real, firstn_skipn. reflexivity.
    + rewrite length_skipn. simpl in Hl. lia.
Qed.

Lemma sum_nonneg_real (l : list R) : Forall (fun x => 0 <= x) l -> 0 <= sum l.
Proof.
  induction 1 as [|x l Hx _ IH].
  - unfold sum. simpl. lra.
  - rewrite sum_cons_real. lra.
Qed.

Lemma std_nonneg_real (l : list R) : 0 <= std l.
Proof. unfold std, std_ddof. apply sqrt_pos. Qed.

(** The standard error returned for two or more blocks is never negative,
    whatever the samples. *)
Theorem standard_error_nonnegative (data : list R) (B : Z) :
  (2 <= B)%Z ->
  exists m e, compute_average_value data B = Ok (m, e) /\ 0 <= e.
Proof.
  intros HB. eexists. eexists. split.
  - apply compute_average_value_blocks. lia.
  - cbn [f_div f_sqrt f_of_Z real_arith].
    apply Rmult_le_pos; [apply std_nonneg_real|].
    apply Rlt_le, Rinv_0_lt_compat, sqrt_lt_R0.
    apply IZR_lt. lia.
Qed.

Lemma standard_error_nonnegative_witness :
  (2 <= 2)%Z /\
  exists m e, compute_average_value [1; 5; 2; 8] 2 = Ok (m, e) /\ 0 <= e.
Proof.
  split; [lia|].
  apply (standard_error_nonnegative [1; 5; 2; 8] 2). lia.
Defined.

Lemma block_means_total_real (data : list R) (B : Z) :
  (1 <= B <= Z.of_nat (length data))%Z ->
  sum (block_means data B)
  = sum (retained data B) / IZR (Z.of_nat (length data) / B).
Proof.
  intros [HB HN]. unfold block_means.
  set (c := Z.to_nat (Z.of_nat (length data) / B)).
  assert (Hq : (1 <= Z.of_nat (length data) / B)%Z)
    by (apply Z.div_le_lower_bound; lia).
  assert (Hlen : length (retained data B) = (Z.to_nat B * c)%nat).
  { pose proof (retained_length data B ltac:(lia)). unfold c. nia. }
  rewrite (map_ext_in mean (fun b => sum b / IZR (Z.of_nat c))).
  - rewrite sum_map_div_real, sum_blocks_real by exact Hlen.
    unfold c. rewrite Z2Nat.id by lia. reflexivity.
  - intros b Hb. unfold mean. cbn [f_div f_of_Z real_arith].
    pose proof (blocks_Forall_length c (Z.to_nat B) _ Hlen) as Hall.
    rewrite Forall_forall in Hall. now rewrite (Hall b Hb).
Qed.

Lemma mean_block_means_real (data : list R) (B : Z) :
  (1 <= B <= Z.of_nat (length data))%Z ->
  mean (block_means data B) = mean (retained data B).
Proof.
  intros HB. destruct HB as [HB HN].
  assert (Hq : (1 <= Z.of_nat (length data) / B)%Z)
    by (apply Z.div_le_lower_bound; lia).
  unfold mean at 1. rewrite block_means_total_real by lia.
  rewrite block_means_length by lia.
  unfold mean. rewrite retained_length by lia.
  cbn [f_div f_of_Z real_arith]. rewrite mult_IZR.
  field. split; apply not_0_IZR; lia.
Qed.

(** With at least one sample per block (1 <= B <= N, c = floor(N/B) samples
    in each), the mean that [compute_average] returns is the mean of the B
    block means, and the error it returns is the spread of the block means
    around that very mean; the same mean is the total of the c * B retained
    samples over their number. *)
Theorem mean_is_mean_of_block_means (data : list R) (B : Z) :
  (1 <= B <= Z.of_nat (length data))%Z ->
  let c := (Z.of_nat (length data) / B)%Z in
  let kept := firstn (Z.to_nat (c * B)) data in
  let ms := map (fun b => fold_left Rplus b 0 / IZR c)
                (blocks (Z.to_nat c) (Z.to_nat B) kept) in
  let m := fold_left Rplus ms 0 / IZR B in
  compute_average_value data B
  = Ok (m,
        sqrt (fold_left Rplus (map (fun mi => (mi - m) * (mi - m)) ms) 0
              / IZR B)
        / sqrt (IZR (B - 1))) /\
  m = fold_left Rplus kept 0 / IZR (c * B).
Proof.
  intros [HB HN] c kept ms m.
  assert (Hq : (1 <= c)%Z) by (apply Z.div_le_lower_bound; lia).
  assert (Hlen : length (retained data B) = (Z.to_nat B * Z.to_nat c)%nat).
  { pose proof (retained_length data B ltac:(lia)). unfold c. nia. }
  pose proof (blocks_Forall_length (Z.to_nat c) (Z.to_nat B) _ Hlen) as Hall.
  assert (Hms : block_means data B = ms).
  { unfold block_means, ms. apply map_ext_in. intros b Hb.
    rewrite Forall_forall in Hall. unfold mean.
    rewrite (Hall b Hb), Z2Nat.id by lia. reflexivity. }
  assert (Hl : Z.of_nat (length ms) = B).
  { unfold ms. rewrite length_map, blocks_length. lia. }
  assert (Hm : mean ms = m).
  { unfold mean, m. rewrite Hl. reflexivity. }
  assert (Hmr : mean (retained data B) = m).
  { rewrite <- Hm, <- Hms. symmetry. apply mean_block_means_real. lia. }
  split.
  - rewrite compute_average_value_blocks by lia.
    rewrite Hmr, Hms. unfold std, std_ddof. rewrite Hm, Hl.
    replace (Z.max (B - 0) 0) with B by lia. reflexivity.
  - rewrite <- Hmr. unfold mean. rewrite retained_length by lia. reflexivity.
Qed.

(** Five samples 1, 5, 2, 8, 4 in two blocks: the last one is dropped, the
    block means are 3 and 5, and the mean returned is 4. *)
Lemma mean_is_mean_of_block_means_witness :
  (1 <= 2 <= Z.of_nat (length [1; 5; 2; 8; 4]))%Z /\
  exists e, compute_average_value [1; 5; 2; 8; 4] 2 = Ok (4, e).
Proof.
  split; [simpl; lia|].
  destruct (mean_is_mean_of_block_means [1; 5; 2; 8; 4] 2) as (E & _);
    [simpl; lia|].
  rewrite E. eexists. f_equal. f_equal.
  match goal with
  | |- context [(Z.of_nat (length ?l) / 2)%Z] =>
      change (Z.of_nat (length l) / 2)%Z with 2%Z
  end.
  change (Z.to_nat (2 * 2)) with 4%nat.
  change (Z.to_nat 2) with 2%nat.
  cbn [firstn blocks skipn map fold_left].
  lra.
Defined.

Lemma retained_map {A B0} (f : A -> B0) (data : list A) (B : Z) :
  retained (map f data) B = map f (retained data B).
Proof. unfold retained. rewrite length_map. apply firstn_map. Qed.

Lemma blocks_map {A B0} (f : A -> B0) (c n : nat) (l : list A) :
  blocks c n (map f l) = map (map f) (blocks c n l).
Proof.
  revert l; induction n as [|n IH]; intros l; [reflexivity|].
  cbn [blocks map]. now rewrite firstn_map, skipn_map, IH.
Qed.

Lemma block_means_map (f : R -> R) (data : list R) (B : Z) :
  block_means (map f data) B
  = map (fun b => mean (map f b))
        (blocks (Z.to_nat (Z.of_nat (length data) / B)) (Z.to_nat B)
                (retained data B)).
Proof.
  unfold block_means.
  now rewrite length_map, retained_map, blocks_map, map_map.
Qed.

Lemma sum_map_shift_real (k : R) (l : list R) :
  sum (map (fun x => x + k) l) = sum l + INR (length l) * k.
Proof.
  induction l as [|x l IH].
  - unfold sum. simpl. ring.
  - cbn [map]. rewrite !sum_cons_real, IH.
    change (length (x :: l)) with (S (length l)). rewrite S_INR. ring.
Qed.

Lemma sum_map_scale_real (a : R) (l : list R) :
  sum (map (fun x => a * x) l) = a * sum l.
Proof.
  induction l as [|x l IH].
  - unfold sum. simpl. ring.
  - cbn [map]. rewrite !sum_cons_real, IH. ring.
Qed.

Lemma mean_shift_real (k : R) (l : list R) :
  l <> [] -> mean (map (fun x => x + k) l) = mean l + k.
Proof.
  intros Hl. unfold mean. rewrite sum_map_shift_real, length_map.
  cbn [f_div f_of_Z real_arith]. rewrite <- INR_IZR_INZ.
  field. apply not_0_INR. destruct l; [contradiction|discriminate].
Qed.

Lemma mean_scale_real (a : R) (l : list R) :
  mean (map (fun x => a * x) l) = a * mean l.
Proof.
  unfold mean. rewrite sum_map_scale_real, length_map.
  cbn [f_div f_of_Z real_arith]. unfold Rdiv. ring.
Qed.

Lemma std_shift_real (k : R) (l : list R) :
  l <> [] -> std (map (fun x => x + k) l) = std l.
Proof.
  intros Hl. unfold std, std_ddof.
  rewrite mean_shift_real by exact Hl.
  rewrite map_map, length_map. cbn [f_sub f_mul real_arith].
  do 3 f_equal. apply map_ext; intros x. ring.
Qed.

Lemma std_scale_real (a : R) (l : list R) :
  std (map (fun x => a * x) l) = Rabs a * std l.
Proof.
  unfold std, std_ddof. rewrite mean_scale_real, map_map, length_map.
  cbn [f_sub f_mul f_div f_sqrt real_arith].
  rewrite (map_ext _ (fun x => Rsqr a * ((x - mean l) * (x - mean l))))
    by (intros x; unfold Rsqr; ring).
  rewrite <- (map_map (fun x => (x - mean l) * (x - mean l))
                      (fun y => Rsqr a * y)).
  rewrite sum_map_scale_real.
  unfold Rdiv. rewrite Rmult_assoc.
  rewrite sqrt_mult_alt by apply Rle_0_sqr.
  now rewrite sqrt_Rsqr_abs.
Qed.

(** Adding one constant to every sample adds it to the mean that is
    returned and leaves the standard error as it was (at least one sample
    per block). *)
Theorem shifted_samples (k : R) (data : list R) (B : Z) :
  (1 <= B <= Z.of_nat (length data))%Z ->
  compute_average_value (map (fun x => x + k) data) B
  = match compute_average_value data B with
    | Ok (m, e) => Ok (m + k, e)
    | Raise ex => Raise ex
    end.
Proof.
  intros [HB HN].
  assert (Hq : (1 <= Z.of_nat (length data) / B)%Z)
    by (apply Z.div_le_lower_bound; lia).
  set (c := Z.to_nat (Z.of_nat (length data) / B)).
  assert (Hlen : length (retained data B) = (Z.to_nat B * c)%nat).
  { pose proof (retained_length data B ltac:(lia)). unfold c. nia. }
  rewrite !compute_average_value_blocks by lia.
  rewrite retained_map, block_means_map. fold c.
  rewrite mean_shift_real
    by (intros E; rewrite E in Hlen; simpl in Hlen; nia).
  rewrite (map_ext_in _ (fun b => mean b + k)).
  - rewrite <- (map_map mean (fun m => m + k)).
    rewrite std_shift_real; [reflexivity|].
    intros E. apply (f_equal (@length R)) in E.
    rewrite length_map, blocks_length in E. simpl in E. lia.
  - intros b Hb. apply mean_shift_real.
    pose proof (blocks_Forall_length c (Z.to_nat B) _ Hlen) as Hall.
    rewrite Forall_forall in Hall. specialize (Hall b Hb).
    intros E. rewrite E in Hall. simpl in Hall. lia.
Qed.

Lemma shifted_samples_witness :
  (1 <= 2 <= Z.of_nat (length [1; 5; 2; 8; 4]))%Z /\
  compute_average_value (map (fun x => x + 100) [1; 5; 2; 8; 4]) 2
  = match compute_average_value [1; 5; 2; 8; 4] 2 with
    | Ok (m, e) => Ok (m + 100, e)
    | Raise ex => Raise ex
    end.
Proof.
  split; [simpl; lia|].
  apply (shifted_samples 100 [1; 5; 2; 8; 4] 2). simpl. lia.
Defined.

(** Multiplying every sample by one factor multiplies the mean that is
    returned by the factor and the standard error by its absolute value. *)
Theorem scaled_samples (a : R) (data : list R) (B : Z) :
  (0 < B)%Z ->
  compute_average_value (map (fun x => a * x) data) B
  = match compute_average_value data B with
    | Ok (m, e) => Ok (a * m, Rabs a * e)
    | Raise ex => Raise ex
    end.
Proof.
  intros HB.
  rewrite !compute_average_value_blocks by lia.
  rewrite retained_map, block_means_map, mean_scale_real.
  rewrite (map_ext _ (fun b => a * mean b)) by (intros b; apply mean_scale_real).
  rewrite <- (map_map mean (fun m => a * m)).
  fold (block_means data B). rewrite std_scale_real.
  cbn [f_div f_sqrt f_of_Z real_arith]. unfold Rdiv.
  now rewrite Rmult_assoc.
Qed.

Lemma scaled_samples_witness :
  (0 < 2)%Z /\
  compute_average_value (map (fun x => (-3) * x) [1; 5; 2; 8; 4]) 2
  = match compute_average_value [1; 5; 2; 8; 4] 2 with
    | Ok (m, e) => Ok ((-3) * m, Rabs (-3) * e)
    | Raise ex => Raise ex
    end.
Proof.
  split; [lia|].
  apply (scaled_samples (-3) [1; 5; 2; 8; 4] 2). lia.
Defined.

End RealEstimator.

(** ** The range, as a selection of recorded steps *)

Section SelectionLaws.
Context {F : Type} `{Arith F} `{Render F}.

Lemma clamp_index_bounds (n i : Z) : 0 <= n -> 0 <= clamp_index n i <= n.
Proof. intros Hn. unfold clamp_index. destruct (i <? 0); lia. Qed.

(** Whatever the two integers of the range, what is selected is one
    contiguous piece of the series, in the recorded order: it starts at
    the clamped start and has as many samples as the clamped end exceeds
    the clamped start (none if it does not). *)
Theorem selection_is_contiguous (range : Z * Z) (d : list F) :
  let n := Z.of_nat (length d) in
  let lo := clamp_index n (fst range) in
  let hi := clamp_index n (snd range) in
  exists before behind : list F,
    d = before ++ select range d ++ behind /\
    Z.of_nat (length before) = lo /\
    Z.of_nat (length (select range d)) = Z.max 0 (hi - lo).
Proof.
  intros n lo hi.
  pose proof (clamp_index_bounds n (fst range) ltac:(lia)) as Hlo.
  pose proof (clamp_index_bounds n (snd range) ltac:(lia)) as Hhi.
  fold lo in Hlo. fold hi in Hhi.
  exists (firstn (Z.to_nat lo) d),
         (skipn (Z.to_nat (hi - lo)) (skipn (Z.to_nat lo) d)).
  unfold select, py_slice. fold n lo hi.
  split; [now rewrite !firstn_skipn|].
  split.
  - rewrite length_firstn. lia.
  - rewrite length_firstn, length_skipn. lia.
Qed.

(** [--range 0 N], N the number of recorded steps or more, selects the
    whole series. *)
Theorem range_to_length_selects_all (d : list F) (j : Z) :
  Z.of_nat (length d) <= j -> select (0, j) d = d.
Proof.
  intros Hj. unfold select, py_slice, clamp_index. cbn [fst snd].
  destruct (Z.ltb_spec j 0) as [?|_]; [lia|].
  cbn [Z.ltb Z.compare skipn].
  replace (Z.max 0 (Z.min (Z.of_nat (length d)) 0)) with 0 by lia.
  replace (Z.max 0 (Z.min (Z.of_nat (length d)) j)) with (Z.of_nat (length d))
    by lia.
  rewrite Z.sub_0_r, Nat2Z.id. apply firstn_all.
Qed.

(** Negative bounds count from the end: for 0 < k <= N, [--range 0 -k]
    leaves out the last k samples and [--range -k N] selects them. *)
Theorem negative_bounds_count_from_end (d : list F) (k : Z) :
  0 < k <= Z.of_nat (length d) ->
  select (0, - k) d = firstn (Z.to_nat (Z.of_nat (length d) - k)) d /\
  select (- k, Z.of_nat (length d)) d
  = skipn (Z.to_nat (Z.of_nat (length d) - k)) d.
Proof.
  intros Hk. unfold select, py_slice, clamp_index. cbn [fst snd].
  set (n := Z.of_nat (length d)) in *.
  destruct (Z.ltb_spec (- k) 0) as [_|?]; [|lia].
  destruct (Z.ltb_spec n 0) as [?|_]; [lia|].
  cbn [Z.ltb Z.compare].
  replace (Z.max 0 (Z.min n 0)) with 0 by lia.
  replace (Z.max 0 (Z.min n (- k + n))) with (n - k) by lia.
  replace (Z.max 0 (Z.min n n)) with n by lia.
  split.
  - cbn [skipn Z.to_nat]. now rewrite Z.sub_0_r.
  - apply firstn_all2. rewrite length_skipn. unfold n. lia.
Qed.

Lemma firstn_combine {A B} (n : nat) (x : list A) (y : list B) :
  firstn n (combine x y) = combine (firstn n x) (firstn n y).
Proof.
  revert x y; induction n as [|n IH]; intros x y; [reflexivity|].
  destruct x as [|a x]; [reflexivity|].
  destruct y as [|b y]; [reflexivity|].
  simpl. now rewrite IH.
Qed.

Lemma skipn_combine {A B} (n : nat) (x : list A) (y : list B) :
  skipn n (combine x y) = combine (skipn n x) (skipn n y).
Proof.
  revert x y; induction n as [|n IH]; intros x y; [reflexivity|].
  destruct x as [|a x]; [reflexivity|].
  destruct y as [|b y]; [simpl; now destruct (skipn n x)|].
  simpl. apply IH.
Qed.

Lemma dump_rows_slice (range : Z * Z) (time epot : list F) :
  length time = length epot ->
  dump_rows (select range time) (select range epot)
  = map savetxt_row (py_slice (combine time epot) (fst range) (snd range)).
Proof.
  intros Hlen. unfold dump_rows, select, py_slice. f_equal.
  rewrite length_combine, <- Hlen, Nat.min_id.
  now rewrite skipn_combine, firstn_combine.
Qed.

(** Times and energies stay paired through the range and into the file.
    With [--dump path], on a complete file whose TIME and EPOT datasets
    have one length, the rows that a run of [main] appends after the header
    are the recorded steps (time, energy) that the range selects from the
    steps of the file, in the recorded order, each time with the energy of
    its own step. *)
Theorem dump_rows_pair_steps (args : arguments) (path : string)
        (w : @world F) (f : @h5file F) (temp press epot time : list F) :
  dump_target args = Some path ->
  h5files w (arg_input args) = Some f ->
  complete f temp press epot time ->
  length time = length epot ->
  files (after (main args) w) path
  = Some (contents (files w) path
          ++ dump_header ++ nl
          ++ join (map savetxt_row
                       (py_slice (combine time epot)
                                 (fst (range_of args)) (snd (range_of args))))
          ++ nl ++ nl)%string.
Proof.
  intros Hd Hopen Hc Hlen.
  destruct (main_run args w f temp press epot time Hopen Hc Hlen)
    as (_ & Hf & _).
  rewrite Hd in Hf. rewrite (Hf path). unfold append.
  rewrite String.eqb_refl. unfold dump_block.
  now rewrite (dump_rows_slice _ _ _ Hlen).
Qed.

End SelectionLaws.

Lemma range_to_length_selects_all_witness :
  Z.of_nat (length (series [3; 1; 4])) <= 1000 /\
  select (0, 1000) (series [3; 1; 4]) = series [3; 1; 4].
Proof.
  split; [vm_compute; discriminate|].
  apply (range_to_length_selects_all (series [3; 1; 4]) 1000).
  vm_compute; discriminate.
Defined.

Lemma negative_bounds_count_from_end_witness :
  0 < 1 <= Z.of_nat (length (series [3; 1; 4])) /\
  select (0, - 1) (series [3; 1; 4]) = series [3; 1] /\
  select (- 1, 3) (series [3; 1; 4]) = series [4].
Proof.
  split; [simpl; lia|].
  apply (negative_bounds_count_from_end (series [3; 1; 4]) 1). simpl. lia.
Defined.

(** A run with [--dump out.txt --range 1 3 --no-plot] on the sample file
    writes the steps of times 1 and 2 with their energies -4 and -6. *)
Lemma dump_rows_pair_steps_witness :
  (dump_target (dump_args (Some (1, 3))) = Some "out.txt"%string /\
   h5files sample_world (arg_input (dump_args (Some (1, 3))))
   = Some sample_file) /\
  files (after (main (dump_args (Some (1, 3)))) sample_world) "out.txt"%string
  = Some ("# time   E_pot(t)" ++ nl
          ++ "1.000000000000000000e+00 -4.000000000000000000e+00" ++ nl
          ++ "2.000000000000000000e+00 -6.000000000000000000e+00" ++ nl
          ++ nl ++ nl)%string.
Proof.
  split; [split; reflexivity|].
  rewrite (dump_rows_pair_steps (dump_args (Some (1, 3))) "out.txt"
             sample_world sample_file _ _ _ _
             eq_refl eq_refl sample_file_complete eq_refl).
  vm_compute. reflexivity.
Defined.

(** ** What a run leaves alone *)

Section DriverFrame.
Context {F : Type} `{Arith F} `{Render F}.

Local Abbreviation M := (@M F).
Local Abbreviation world := (@world F).
Local Abbreviation plot_cmd := (@plot_cmd F).
Local Abbreviation param_group := (@param_group F).
Local Abbreviation keeps := (keeps (F := F)).

Section View.
Context {T : Type} (view : world -> T).

(** Views that do not look at the printed text, at the figure. *)
Local Abbreviation blind_to_stdout :=
  (forall t b w, view (set_stdout t b w) = view w).
Local Abbreviation blind_to_figure :=
  (forall fig w, view (set_figure fig w) = view w).

Lemma keeps_bind {A B} (c : M A) (k : A -> M B) :
  keeps view c -> (forall a, keeps view (k a)) -> keeps view (bind c k).
Proof.
  intros Hc Hk w. unfold after. rewrite bind_run.
  specialize (Hc w). unfold after in Hc.
  destruct (c w) as [[a|e] w1]; simpl in Hc; [|exact Hc].
  specialize (Hk a w1). unfold after in Hk. congruence.
Qed.

Lemma keeps_ret {A} (a : A) : keeps view (ret a).
Proof. intros w. reflexivity. Qed.

Lemma keeps_lift {A} (r : result A) : keeps view (lift r).
Proof. intros w. reflexivity. Qed.

Lemma keeps_lookup {A} (o : option A) : keeps view (lookup o).
Proof. destruct o; intros w; reflexivity. Qed.

Lemma keeps_h5_open (path : string) : keeps view (h5_open path).
Proof. intros w. unfold after, h5_open. now destruct (h5files w path). Qed.

Lemma keeps_when (b : bool) (c : M unit) : keeps view c -> keeps view (when b c).
Proof. intros Hc. destruct b; [exact Hc|apply keeps_ret]. Qed.

Lemma keeps_for_each {A} (l : list A) (body : A -> M unit) :
  (forall a, keeps view (body a)) -> keeps view (for_each l body).
Proof.
  intros Hb. induction l as [|a l IH]; cbn [for_each].
  - apply keeps_ret.
  - apply keeps_bind; [apply Hb|intros _; exact IH].
Qed.

Lemma keeps_print (s : string) : blind_to_stdout -> keeps view (print s).
Proof. intros Hv w. apply Hv. Qed.

Lemma keeps_print_comma (s : string) :
  blind_to_stdout -> keeps view (print_comma s).
Proof. intros Hv w. apply Hv. Qed.

Lemma keeps_print_newline : blind_to_stdout -> keeps view print_newline.
Proof. intros Hv w. apply Hv. Qed.

Lemma keeps_plotting (c : plot_cmd) : blind_to_figure -> keeps view (plotting c).
Proof. intros Hv w. apply Hv. Qed.

Lemma keeps_raise {A} (e : exn) : keeps view (raise e : M A).
Proof. intros w. reflexivity. Qed.

Lemma keeps_plot (x y : list F) (style : string) (label : option string) :
  blind_to_figure -> keeps view (plot x y style label).
Proof.
  intros Hv. unfold plot. destruct (Nat.eqb _ _);
    [now apply keeps_plotting|apply keeps_raise].
Qed.

Lemma keeps_compute_average (data : list F) (label : string) (nblocks : Z) :
  blind_to_stdout -> keeps view (compute_average data label nblocks).
Proof.
  intros Hv. unfold compute_average.
  apply keeps_bind; [apply keeps_lift|intros r].
  apply keeps_bind; [now apply keeps_print|intros _; apply keeps_ret].
Qed.

Lemma keeps_print_details (pg : param_group) :
  blind_to_stdout -> keeps view (print_details pg).
Proof.
  intros Hv. unfold print_details.
  repeat first
    [ apply keeps_print; exact Hv
    | apply keeps_bind; [|intros ?]
    | apply keeps_lookup
    | apply keeps_print_comma; exact Hv
    | apply keeps_print_newline; exact Hv
    | apply keeps_for_each; intros ? ].
Qed.

Lemma keeps_analysis (range : Z * Z) (input : string) :
  blind_to_stdout -> keeps view (analysis range input).
Proof.
  intros Hv. unfold analysis.
  repeat first
    [ apply keeps_ret
    | apply keeps_lookup
    | apply keeps_h5_open
    | apply keeps_print_details; exact Hv
    | apply keeps_compute_average; exact Hv
    | apply keeps_bind; [|intros ?] ].
Qed.

Lemma keeps_savetxt (path : string) (a : table) :
  (forall t, keeps view (write_append path t)) -> keeps view (savetxt path a).
Proof.
  intros Hw. destruct a as [rows|x y]; cbn [savetxt].
  - apply keeps_for_each. intros r. apply Hw.
  - apply keeps_raise.
Qed.

Lemma keeps_append_plot_data (args : arguments) (x y : list F) :
  (forall path t, dump_target args = Some path ->
                  keeps view (write_append path t)) ->
  keeps view (append_plot_data args x y).
Proof.
  intros Hw. unfold append_plot_data.
  destruct (dump_target args) as [path|]; [|apply keeps_ret].
  specialize (Hw path).
  apply keeps_bind; [apply Hw; reflexivity|intros _].
  apply keeps_bind; [apply keeps_savetxt; intros t; now apply Hw|intros _].
  apply Hw; reflexivity.
Qed.

Lemma keeps_plot_mean_value (x : list F) (epot : F) :
  blind_to_figure -> keeps view (plot_mean_value x epot).
Proof.
  intros Hv. unfold plot_mean_value.
  apply keeps_bind; [apply keeps_lift|intros lo].
  apply keeps_bind; [apply keeps_lift|intros hi].
  now apply keeps_plot.
Qed.

Lemma keeps_finalise_plot : blind_to_figure -> keeps view finalise_plot.
Proof.
  intros Hv. unfold finalise_plot.
  repeat (apply keeps_bind; [now apply keeps_plotting|intros _]).
  now apply keeps_plotting.
Qed.

Lemma keeps_plot_and_dump (args : arguments) (x y : list F) (epot : F) :
  (arg_no_plot args = true \/ blind_to_figure) ->
  (forall path t, dump_target args = Some path ->
                  keeps view (write_append path t)) ->
  keeps view (plot_and_dump args x y epot).
Proof.
  intros Hp Hw. unfold plot_and_dump.
  assert (Hplot : forall c, (blind_to_figure -> keeps view c) ->
                            keeps view (when (negb (arg_no_plot args)) c)).
  { intros c Hc. destruct Hp as [-> | Hv]; [apply keeps_ret|].
    apply keeps_when, Hc, Hv. }
  apply keeps_bind; [apply Hplot, keeps_plot|intros _].
  apply keeps_bind; [now apply keeps_append_plot_data|intros _].
  apply keeps_bind; [apply Hplot, keeps_plot_mean_value|intros _].
  apply Hplot, keeps_finalise_plot.
Qed.

Lemma keeps_main (args : arguments) :
  blind_to_stdout ->
  (arg_no_plot args = true \/ blind_to_figure) ->
  (forall path t, dump_target args = Some path ->
                  keeps view (write_append path t)) ->
  keeps view (main args).
Proof.
  intros Hs Hp Hw. unfold main. cbv zeta.
  repeat first
    [ apply keeps_lookup
    | apply keeps_h5_open
    | apply keeps_print_details; exact Hs
    | apply keeps_compute_average; exact Hs
    | apply keeps_bind; [|intros ?] ].
  all: try (destruct Hp as [E | Hv];
            [rewrite E; apply keeps_ret|apply keeps_when]).
  all: try (now apply keeps_plot).
  all: try (now apply keeps_append_plot_data).
  all: try (now apply keeps_plot_mean_value).
  all: try (now apply keeps_finalise_plot).
Qed.

End View.

(** With [--no-plot] a run makes no request to the plotting library,
    whatever else it does. *)
Theorem no_plot_requests_nothing (args : arguments) (w : world) :
  arg_no_plot args = true ->
  figure (after (main args) w) = figure w.
Proof.
  intros Hn. apply (keeps_main (@figure F) args).
  - intros t b w0. reflexivity.
  - now left.
  - intros path t _ w0. reflexivity.
Qed.

(** Without [--dump], and also with an empty file name after [--dump], a
    run changes no text file. *)
Theorem no_dump_writes_nothing (args : arguments) (w : world) :
  arg_dump args = None \/ arg_dump args = Some EmptyString ->
  files (after (main args) w) = files w.
Proof.
  intros Hd. apply (keeps_main (@files F) args).
  - intros t b w0. reflexivity.
  - right. intros fig w0. reflexivity.
  - intros path t Hp. unfold dump_target in Hp.
    destruct Hd as [E | E]; rewrite E in Hp; discriminate.
Qed.

(** With [--dump path] a run changes no text file other than [path]. *)
Theorem dump_touches_one_file (args : arguments) (path other : string)
        (w : world) :
  arg_dump args = Some path ->
  other <> path ->
  files (after (main args) w) other = files w other.
Proof.
  intros Hd Hne.
  apply (keeps_main (fun w0 : world => files w0 other) args).
  - intros t b w0. reflexivity.
  - right. intros fig w0. reflexivity.
  - intros p t Hp w0. unfold dump_target in Hp. rewrite Hd in Hp.
    assert (p = path) as -> by (destruct path; congruence).
    unfold after, write_append. cbn [snd set_files files]. unfold append.
    apply String.eqb_neq in Hne. now rewrite Hne.
Qed.

End DriverFrame.

Lemma no_plot_requests_nothing_witness :
  arg_no_plot (dump_args None) = true /\
  figure (after (main (dump_args None)) sample_world) = figure sample_world.
Proof.
  split; [reflexivity|].
  apply (no_plot_requests_nothing (dump_args None) sample_world). reflexivity.
Defined.

Lemma no_dump_writes_nothing_witness :
  (arg_dump (sample_args None (Some EmptyString) false) = None \/
   arg_dump (sample_args None (Some EmptyString) false) = Some EmptyString) /\
  files (after (main (sample_args None (Some EmptyString) false)) sample_world)
  = files sample_world.
Proof.
  split; [right; reflexivity|].
  apply (no_dump_writes_nothing
           (sample_args None (Some EmptyString) false) sample_world).
  right. reflexivity.
Defined.

Lemma dump_touches_one_file_witness :
  (arg_dump (dump_args None) = Some "out.txt"%string /\
   "run.log"%string <> "out.txt"%string) /\
  files (after (main (dump_args None)) sample_world) "run.log"%string
  = files sample_world "run.log"%string.
Proof.
  split; [split; [reflexivity|discriminate]|].
  apply (dump_touches_one_file (dump_args None) "out.txt" "run.log" sample_world).
  - reflexivity.
  - discriminate.
Defined.

(** ** What a run raises *)

Section DriverExceptions.
Context {F : Type} `{Arith F} `{Render F}.

Local Abbreviation M := (@M F).
Local Abbreviation world := (@world F).
Local Abbreviation plot_cmd := (@plot_cmd F).
Local Abbreviation param_group := (@param_group F).
Local Abbreviation h5file := (@h5file F).
Local Abbreviation raises_only := (raises_only (F := F)).

Section Exceptions.
Context (P : exn -> Prop).

Lemma raises_only_bind {A B} (c : M A) (k : A -> M B) :
  raises_only P c -> (forall a, raises_only P (k a)) ->
  raises_only P (bind c k).
Proof.
  intros Hc Hk w e. unfold returned. rewrite bind_run.
  specialize (Hc w). unfold returned in Hc.
  destruct (c w) as [[a|e1] w1]; simpl in Hc.
  - apply (Hk a w1).
  - simpl. intros E. apply Hc. inversion E. reflexivity.
Qed.

Lemma raises_only_ret {A} (a : A) : raises_only P (ret a).
Proof. intros w e. discriminate. Qed.

Lemma raises_only_lift {A} (r : result A) :
  (forall e, r = Raise e -> P e) -> raises_only P (lift r).
Proof. intros Hr w e. apply Hr. Qed.

Lemma raises_only_lookup {A} (o : option A) :
  P KeyError -> raises_only P (lookup o).
Proof.
  intros HP w e. destruct o; unfold returned; simpl; [discriminate|].
  intros E. now inversion E; subst.
Qed.

Lemma raises_only_h5_open (path : string) :
  P IOError -> raises_only P (h5_open path).
Proof.
  intros HP w e. unfold returned, h5_open.
  destruct (h5files w path); simpl; [discriminate|].
  intros E. now inversion E; subst.
Qed.

Lemma raises_only_print (s : string) : raises_only P (print s).
Proof. intros w e. discriminate. Qed.

Lemma raises_only_print_comma (s : string) : raises_only P (print_comma s).
Proof. intros w e. discriminate. Qed.

Lemma raises_only_print_newline : raises_only P print_newline.
Proof. intros w e. discriminate. Qed.

Lemma raises_only_plotting (c : plot_cmd) : raises_only P (plotting c).
Proof. intros w e. discriminate. Qed.

Lemma raises_only_raise {A} (e : exn) : P e -> raises_only P (raise e : M A).
Proof. intros HP w e' E. unfold returned, raise in E. now inversion E; subst. Qed.

Lemma raises_only_plot (x y : list F) (style : string) (label : option string) :
  P ValueError -> raises_only P (plot x y style label).
Proof.
  intros HV. unfold plot. destruct (Nat.eqb _ _);
    [apply raises_only_plotting|now apply raises_only_raise].
Qed.

Lemma raises_only_write_append (path t : string) :
  raises_only P (write_append path t).
Proof. intros w e. discriminate. Qed.

Lemma raises_only_when (b : bool) (c : M unit) :
  raises_only P c -> raises_only P (when b c).
Proof. intros Hc. destruct b; [exact Hc|apply raises_only_ret]. Qed.

Lemma raises_only_for_each {A} (l : list A) (body : A -> M unit) :
  (forall a, raises_only P (body a)) -> raises_only P (for_each l body).
Proof.
  intros Hb. induction l as [|a l IH]; cbn [for_each].
  - apply raises_only_ret.
  - apply raises_only_bind; [apply Hb|intros _; exact IH].
Qed.

Lemma raises_only_compute_average (data : list F) (label : string) :
  raises_only P (compute_average data label default_nblocks).
Proof.
  intros w e. unfold returned. rewrite compute_average_run.
  cbn. discriminate.
Qed.

Lemma raises_only_print_details (pg : param_group) :
  P KeyError -> raises_only P (print_details pg).
Proof.
  intros HP. unfold print_details.
  repeat first
    [ apply raises_only_print
    | apply raises_only_print_comma
    | apply raises_only_print_newline
    | apply raises_only_lookup; exact HP
    | apply raises_only_for_each; intros ?
    | apply raises_only_bind; [|intros ?] ].
Qed.

Lemma raises_only_analysis (range : Z * Z) (input : string) :
  P IOError -> P KeyError -> raises_only P (analysis range input).
Proof.
  intros HI HK. unfold analysis.
  repeat first
    [ apply raises_only_ret
    | apply raises_only_h5_open; exact HI
    | apply raises_only_lookup; exact HK
    | apply raises_only_print_details; exact HK
    | apply raises_only_compute_average
    | apply raises_only_bind; [|intros ?] ].
Qed.

Lemma raises_only_savetxt (path : string) (a : table) :
  P TypeError -> raises_only P (savetxt path a).
Proof.
  intros HT. destruct a as [rows|x y]; cbn [savetxt].
  - apply raises_only_for_each. intros r. apply raises_only_write_append.
  - now apply raises_only_raise.
Qed.

(** The last four statements raise ValueError (a [plot] of two lengths,
    [min] of nothing) or TypeError ([savetxt] of two lengths), nothing
    else. *)
Lemma raises_only_plot_and_dump (args : arguments) (x y : list F) (epot : F) :
  P ValueError -> P TypeError -> raises_only P (plot_and_dump args x y epot).
Proof.
  intros HV HT.
  assert (Hmin : forall e, py_min x = Raise e -> P e).
  { intros e. destruct x; simpl; [|discriminate].
    intros E. now inversion E; subst. }
  assert (Hmax : forall e, py_max x = Raise e -> P e).
  { intros e. destruct x; simpl; [|discriminate].
    intros E. now inversion E; subst. }
  unfold plot_and_dump, append_plot_data, plot_mean_value, finalise_plot,
    print_to.
  destruct (dump_target args);
    repeat first
      [ apply raises_only_ret
      | apply raises_only_plotting
      | apply raises_only_plot; exact HV
      | apply raises_only_savetxt; exact HT
      | apply raises_only_write_append
      | apply raises_only_lift; assumption
      | apply raises_only_when
      | apply raises_only_bind; [|intros ?] ].
Qed.

End Exceptions.

Lemma analysis_io_error (range : Z * Z) (input : string) (w : world) :
  returned (analysis range input) w = Raise IOError ->
  h5files w input = None.
Proof.
  unfold analysis, returned. rewrite bind_run. unfold h5_open at 1.
  destruct (h5files w input) as [f|]; [|reflexivity].
  cbv beta iota.
  match goal with
  | |- fst (bind ?c ?k ?w0) = _ -> _ =>
      assert (Hrest : raises_only (fun e => e <> IOError) (bind c k))
  end.
  { repeat first
      [ apply raises_only_ret
      | apply raises_only_lookup; discriminate
      | apply raises_only_print_details; discriminate
      | apply raises_only_compute_average
      | apply raises_only_bind; [|intros ?] ]. }
  intros E. exfalso. now apply (Hrest w IOError E).
Qed.

(** A run that raises KeyError has raised it in the analysis, and has
    done nothing after it. *)
Lemma main_key_error (args : arguments) (w : world) :
  returned (main args) w = Raise KeyError ->
  returned (analysis (range_of args) (arg_input args)) w = Raise KeyError /\
  after (main args) w = after (analysis (range_of args) (arg_input args)) w.
Proof.
  unfold returned, after. rewrite main_split. intros E.
  destruct (bind _ _ w) as [r w'] eqn:R. simpl in E. subst r.
  apply bind_raise_inv in R. destruct R as [R | (a & w1 & _ & R)].
  - rewrite R. split; reflexivity.
  - exfalso.
    assert (Hk : KeyError = ValueError \/ KeyError = TypeError).
    { apply (raises_only_plot_and_dump
               (fun e => e = ValueError \/ e = TypeError) args
               (fst (fst a)) (snd (fst a)) (snd a)
               (or_introl eq_refl) (or_intror eq_refl) w1 KeyError).
      unfold returned. now rewrite R. }
    destruct Hk as [Hk | Hk]; discriminate Hk.
Qed.

Lemma main_unreadable (args : arguments) (w : world) :
  h5files w (arg_input args) = None -> main args w = (Raise IOError, w).
Proof.
  intros Hopen. unfold main. cbv zeta. rewrite bind_run.
  unfold h5_open. now rewrite Hopen.
Qed.

(** When the input file cannot be opened the run raises IOError, and
    nothing at all has happened: nothing is printed, written or plotted. *)
Theorem unreadable_input (args : arguments) (w : world) :
  h5files w (arg_input args) = None ->
  returned (main args) w = Raise IOError /\
  stdout (after (main args) w) = stdout w /\
  files (after (main args) w) = files w /\
  figure (after (main args) w) = figure w.
Proof.
  intros Hopen. unfold returned, after.
  rewrite (main_unreadable args w Hopen). repeat split.
Qed.

(** A run raises KeyError exactly when the input file opens and lacks
    something the script reads: the parameter group, one of its five
    attributes, or one of the datasets TEMP, PRESS, EPOT, TIME. *)
Theorem missing_data (args : arguments) (w : world) :
  returned (main args) w = Raise KeyError <->
  exists f, h5files w (arg_input args) = Some f /\
            ~ exists temp press epot time, complete f temp press epot time.
Proof.
  split.
  - intros E.
    destruct (h5files w (arg_input args)) as [f|] eqn:Hopen.
    + exists f. split; [reflexivity|].
      intros (temp & press & epot & time & Hc).
      destruct (main_prefix args w f temp press epot time Hopen Hc)
        as (w1 & e & _ & R & _).
      unfold returned in E. rewrite R in E.
      assert (Hk : KeyError = ValueError \/ KeyError = TypeError).
      { exact (raises_only_plot_and_dump
                 (fun e => e = ValueError \/ e = TypeError) args
                 _ _ _ (or_introl eq_refl) (or_intror eq_refl)
                 w1 KeyError E). }
      destruct Hk as [Hk | Hk]; discriminate Hk.
    + apply (main_unreadable args w) in Hopen.
      unfold returned in E. rewrite Hopen in E. discriminate.
  - intros (f & Hopen & Hinc).
    unfold returned. rewrite main_split, bind_run.
    destruct (analysis (range_of args) (arg_input args) w) as [[r|e] w1] eqn:R.
    + exfalso. apply Hinc.
      destruct (analysis_ok_inv _ _ _ _ _ R) as (f' & temp & press & epot & time
                                                 & Hopen' & Hc & _).
      assert (f' = f) as -> by congruence. eauto.
    + simpl.
      assert (He : e = IOError \/ e = KeyError).
      { apply (raises_only_analysis (fun e => e = IOError \/ e = KeyError)
                 (range_of args) (arg_input args)
                 (or_introl eq_refl) (or_intror eq_refl) w e).
        unfold returned. now rewrite R. }
      destruct He as [-> | ->]; [|reflexivity].
      exfalso.
      assert (Hn : h5files w (arg_input args) = None).
      { apply (analysis_io_error (range_of args)). unfold returned. now rewrite R. }
      congruence.
Qed.

(** A run that stops with KeyError has written no text file and has made
    no request to the plotting library. *)
Theorem failure_before_output (args : arguments) (w : world) :
  returned (main args) w = Raise KeyError ->
  files (after (main args) w) = files w /\
  figure (after (main args) w) = figure w.
Proof.
  intros E.
  destruct (main_key_error args w E) as (_ & ->).
  split.
  - apply (keeps_analysis (@files F)). intros t b w0. reflexivity.
  - apply (keeps_analysis (@figure F)). intros t b w0. reflexivity.
Qed.

(** What a run prints does not depend on [--no-plot] or [--dump]: two runs
    on the same input with the same range print the same text. *)
Theorem printed_text_independent (args1 args2 : arguments) (w : world) :
  range_of args1 = range_of args2 ->
  arg_input args1 = arg_input args2 ->
  stdout (after (main args1) w) = stdout (after (main args2) w).
Proof.
  intros Hr Hi. unfold after. rewrite !main_split, Hr, Hi, !bind_run.
  destruct (analysis (range_of args2) (arg_input args2) w) as [[r|e] w1];
    [|reflexivity].
  assert (Hk : forall args,
             stdout (snd (plot_and_dump args (fst (fst r)) (snd (fst r)) (snd r) w1))
             = stdout w1).
  { intros args.
    apply (keeps_plot_and_dump (@stdout F) args).
    - right. intros fig w0. reflexivity.
    - intros path t _ w0. reflexivity. }
  now rewrite !Hk.
Qed.

End DriverExceptions.

Section FailingRuns.

Lemma partial_file_incomplete :
  ~ exists temp press epot time, complete partial_file temp press epot time.
Proof.
  intros (temp & press & epot & time & _ & _ & Hp & _). discriminate Hp.
Qed.

Lemma unreadable_input_witness :
  h5files sample_world (arg_input absent_args) = None /\
  returned (main absent_args) sample_world = Raise IOError /\
  files (after (main absent_args) sample_world) "out.txt"%string = None.
Proof.
  split; [reflexivity|].
  destruct (unreadable_input absent_args sample_world eq_refl)
    as (E & _ & Ef & _).
  split; [exact E|]. now rewrite Ef.
Defined.

Lemma missing_data_witness :
  h5files partial_world (arg_input (dump_args None)) = Some partial_file /\
  returned (main (dump_args None)) partial_world = Raise KeyError.
Proof.
  split; [reflexivity|].
  apply (proj2 (missing_data (dump_args None) partial_world)).
  exists partial_file. split; [reflexivity|exact partial_file_incomplete].
Defined.

Lemma failure_before_output_witness :
  returned (main (sample_args None (Some "out.txt"%string) false)) partial_world
  = Raise KeyError /\
  files (after (main (sample_args None (Some "out.txt"%string) false))
               partial_world) = files partial_world /\
  figure (after (main (sample_args None (Some "out.txt"%string) false))
                partial_world) = figure partial_world.
Proof.
  split; [vm_compute; reflexivity|].
  apply (failure_before_output
           (sample_args None (Some "out.txt"%string) false)
           partial_world).
  vm_compute. reflexivity.
Defined.

Lemma printed_text_independent_witness :
  (range_of (dump_args None) = range_of (sample_args None None false) /\
   arg_input (dump_args None) = arg_input (sample_args None None false)) /\
  stdout (after (main (dump_args None)) sample_world)
  = stdout (after (main (sample_args None None false)) sample_world).
Proof.
  split; [split; reflexivity|].
  apply (printed_text_independent (dump_args None)
           (sample_args None None false) sample_world); reflexivity.
Defined.

End FailingRuns.

(** ** What a run prints and plots *)

Section DriverReport.
Context {F : Type} `{Arith F} `{Render F}.

Local Abbreviation M := (@M F).
Local Abbreviation world := (@world F).
Local Abbreviation plot_cmd := (@plot_cmd F).
Local Abbreviation param_group := (@param_group F).
Local Abbreviation h5file := (@h5file F).
Local Open Scope string_scope.

Lemma set_stdout_twice (t t' : string) (b b' : bool) (w : world) :
  set_stdout t b (set_stdout t' b' w) = set_stdout t b w.
Proof. reflexivity. Qed.

Lemma box_lengths_printed (len : list F) (t : string) (w : world) :
  for_each len (fun x => print_comma (" " ++ fmt_general x))
           (set_stdout t true w)
  = (Ok tt,
     set_stdout (t ++ join (map (fun x => "  " ++ fmt_general x) len)) true w).
Proof.
  revert t; induction len as [|x len IH]; intros t.
  - cbn [for_each map join fold_right]. now rewrite string_app_empty.
  - cbn [for_each]. rewrite bind_run. unfold print_comma at 1.
    cbn [set_stdout stdout softspace soft files h5files figure].
    change (set_stdout ?a ?b (set_stdout _ _ w)) with (set_stdout a b w).
    fold (set_stdout (t ++ " " ++ " " ++ fmt_general x) true w).
    rewrite IH. do 2 f_equal. unfold join. cbn [map fold_right].
    rewrite string_app_assoc. reflexivity.
Qed.

Lemma print_details_run (pg : param_group) (particles force cutoff : string)
      (len : list F) (density : F) (w : world) :
  box_particles pg = Some particles ->
  param_force pg = Some force ->
  force_cutoff pg force = Some cutoff ->
  box_length pg = Some len ->
  box_density pg = Some density ->
  print_details pg w
  = (Ok tt,
     set_stdout (stdout w ++ soft w
                 ++ details_text particles cutoff len density) false w).
Proof.
  intros E1 E2 E3 E4 E5. unfold print_details.
  rewrite bind_run, E1. cbn [lookup ret].
  rewrite bind_run. unfold print at 1. cbv beta iota.
  rewrite bind_run, E2. cbn [lookup ret].
  rewrite bind_run, E3. cbn [lookup ret].
  rewrite bind_run. unfold print at 1. cbv beta iota.
  rewrite bind_run. unfold print_comma at 1. cbv beta iota.
  rewrite bind_run, E4. cbn [lookup ret].
  rewrite bind_run.
  match goal with
  | |- context [for_each len ?body (set_stdout ?t true ?w0)] =>
      change (set_stdout t true w0) with (set_stdout t true w);
      rewrite box_lengths_printed
  end.
  cbv beta iota.
  rewrite bind_run. unfold print_newline at 1. cbv beta iota.
  rewrite bind_run, E5. cbn [lookup ret].
  unfold print. rewrite !set_stdout_twice.
  cbn [set_stdout stdout softspace soft].
  apply (f_equal (fun t => (Ok tt, set_stdout t false w))).
  unfold details_text.
  repeat rewrite string_app_assoc. cbn [String.append]. reflexivity.
Qed.

(** With all five attributes there, [# print some details] prints four
    lines; in the line of the box size every length comes after two
    spaces, the one the script writes and the one Python 2 puts between the
    items of a [print] that ends with a comma. *)
Theorem details_printed (pg : param_group) (particles force cutoff : string)
        (len : list F) (density : F) (w : world) :
  box_particles pg = Some particles ->
  param_force pg = Some force ->
  force_cutoff pg force = Some cutoff ->
  box_length pg = Some len ->
  box_density pg = Some density ->
  print_details pg w
  = (Ok tt,
     set_stdout (stdout w ++ soft w
                 ++ details_text particles cutoff len density) false w).
Proof. apply print_details_run. Qed.

Lemma compute_average_default_run (data : list F) (label : string)
      (w : world) :
  compute_average data label default_nblocks w
  = (Ok (block_average data),
     set_stdout (stdout w ++ soft w ++ report_line label (block_average data))
                false w).
Proof.
  rewrite compute_average_run.
  change ((default_nblocks =? 0)%Z) with false.
  change ((default_nblocks <? 0)%Z) with false.
  cbv beta iota zeta. fold (block_average data).
  apply (f_equal (fun t => (Ok (block_average data), set_stdout t false w))).
  unfold report_line. repeat rewrite string_app_assoc. reflexivity.
Qed.

(** The analysis of a complete file, in full. *)
Lemma analysis_run (range : Z * Z) (input : string) (w : world) (f : h5file)
      (pg : param_group) (particles force cutoff : string) (len : list F)
      (density : F) (temp press epot time : list F) :
  h5files w input = Some f ->
  h5_param f = Some pg ->
  box_particles pg = Some particles ->
  param_force pg = Some force ->
  force_cutoff pg force = Some cutoff ->
  box_length pg = Some len ->
  box_density pg = Some density ->
  h5_dataset f "TEMP" = Some temp ->
  h5_dataset f "PRESS" = Some press ->
  h5_dataset f "EPOT" = Some epot ->
  h5_dataset f "TIME" = Some time ->
  analysis range input w
  = (Ok (select range time, select range epot,
         fst (block_average (select range epot))),
     set_stdout
       (stdout w ++ soft w
        ++ details_text particles cutoff len density
        ++ report_line "Temperature" (block_average (select range temp))
        ++ report_line "Pressure" (block_average (select range press))
        ++ report_line "Potential energy" (block_average (select range epot)))
       false w).
Proof.
  intros Hopen Hpg E1 E2 E3 E4 E5 Htemp Hpress Hepot Htime.
  unfold analysis.
  rewrite bind_run. unfold h5_open at 1. rewrite Hopen. cbv beta iota.
  rewrite bind_run, Hpg. cbn [lookup ret].
  rewrite bind_run,
    (print_details_run pg particles force cutoff len density w E1 E2 E3 E4 E5).
  cbv beta iota.
  rewrite bind_run, Htemp. cbn [lookup ret].
  rewrite bind_run, compute_average_default_run. cbv beta iota.
  rewrite bind_run, Hpress. cbn [lookup ret].
  rewrite bind_run, compute_average_default_run. cbv beta iota.
  rewrite bind_run, Hepot. cbn [lookup ret].
  rewrite bind_run, compute_average_default_run. cbv beta iota.
  rewrite bind_run, Htime. cbn [lookup ret].
  rewrite bind_run. cbn [lookup ret].
  rewrite !set_stdout_twice.
  cbn [set_stdout stdout softspace soft]. unfold ret.
  match goal with
  | |- (Ok ?r, _) = _ =>
      apply (f_equal (fun t => (Ok r, set_stdout t false w)))
  end.
  repeat rewrite string_app_assoc. cbn [String.append]. reflexivity.
Qed.

(** On a complete file a run prints the four lines of details and then one
    line for each of temperature, pressure and potential energy, with the
    block average over ten blocks of the selected samples; this is all it
    prints, whether it plots or dumps, and whether it returns or stops at
    the plot. *)
Theorem printed_report (args : arguments) (w : world) (f : h5file)
        (pg : param_group) (particles force cutoff : string) (len : list F)
        (density : F) (temp press epot time : list F) :
  h5files w (arg_input args) = Some f ->
  h5_param f = Some pg ->
  box_particles pg = Some particles ->
  param_force pg = Some force ->
  force_cutoff pg force = Some cutoff ->
  box_length pg = Some len ->
  box_density pg = Some density ->
  h5_dataset f "TEMP" = Some temp ->
  h5_dataset f "PRESS" = Some press ->
  h5_dataset f "EPOT" = Some epot ->
  h5_dataset f "TIME" = Some time ->
  stdout (after (main args) w)
  = stdout w ++ soft w
    ++ details_text particles cutoff len density
    ++ report_line "Temperature"
         (block_average (select (range_of args) temp))
    ++ report_line "Pressure"
         (block_average (select (range_of args) press))
    ++ report_line "Potential energy"
         (block_average (select (range_of args) epot)).
Proof.
  intros Hopen Hpg E1 E2 E3 E4 E5 Htemp Hpress Hepot Htime.
  unfold after. rewrite main_split, bind_run.
  rewrite (analysis_run (range_of args) (arg_input args) w f pg particles
             force cutoff len density temp press epot time)
    by assumption.
  cbv beta iota. cbn [fst snd].
  match goal with
  | |- stdout (snd (plot_and_dump ?a ?x ?y ?e ?w1)) = _ =>
      change (snd (plot_and_dump a x y e w1))
        with (after (plot_and_dump a x y e) w1);
      rewrite (keeps_plot_and_dump (@stdout F) a x y e)
  end.
  - reflexivity.
  - right. intros fig w0. reflexivity.
  - intros path t _ w0. reflexivity.
Qed.

(** C7, as the program has it: the driver applies the range to each series
    before the reducer.  For valid bounds 0 <= start <= end <= N the
    selection is exactly the end - start samples start .. end-1, a call of
    the reducer on it returns the block average (ten blocks) of that part
    of the series, and what a run of [main] on a complete file reports for
    temperature, pressure and potential energy is the block average of that
    part of each series, not of the whole. *)
Theorem range_selected_before_reduction (args : arguments) (i j : Z)
        (w : world) (f : h5file)
        (pg : param_group) (particles force cutoff : string) (len : list F)
        (density : F) (temp press epot time : list F) :
  arg_range args = Some (i, j) ->
  h5files w (arg_input args) = Some f ->
  h5_param f = Some pg ->
  box_particles pg = Some particles ->
  param_force pg = Some force ->
  force_cutoff pg force = Some cutoff ->
  box_length pg = Some len ->
  box_density pg = Some density ->
  h5_dataset f "TEMP" = Some temp ->
  h5_dataset f "PRESS" = Some press ->
  h5_dataset f "EPOT" = Some epot ->
  h5_dataset f "TIME" = Some time ->
  0 <= i <= j ->
  j <= Z.of_nat (length temp) ->
  j <= Z.of_nat (length press) ->
  j <= Z.of_nat (length epot) ->
  let part := fun s : list F =>
                firstn (Z.to_nat (j - i)) (skipn (Z.to_nat i) s) in
  let reduced := fun s : list F =>
                   (mean (retained (part s) default_nblocks),
                    f_div (std (block_means (part s) default_nblocks))
                          (f_sqrt (f_of_Z (default_nblocks - 1)))) in
  (forall s : list F,
      j <= Z.of_nat (length s) ->
      select (range_of args) s = part s /\
      Z.of_nat (length (part s)) = j - i /\
      forall (label : string) (w0 : world),
        returned (compute_average (select (range_of args) s) label
                                  default_nblocks) w0
        = Ok (reduced s)) /\
  stdout (after (main args) w)
  = stdout w ++ soft w
    ++ details_text particles cutoff len density
    ++ report_line "Temperature" (reduced temp)
    ++ report_line "Pressure" (reduced press)
    ++ report_line "Potential energy" (reduced epot).
Proof.
  intros Hr Hopen Hpg E1 E2 E3 E4 E5 Htemp Hpress Hepot Htime Hi Ht Hp He
         part reduced.
  assert (Hrange : range_of args = (i, j))
    by (unfold range_of; now rewrite Hr).
  assert (Hsel : forall s : list F,
             j <= Z.of_nat (length s) -> select (i, j) s = part s).
  { intros s Hs. unfold select. cbn [fst snd]. now apply py_slice_valid. }
  split.
  - intros s Hs. rewrite Hrange. split; [now apply Hsel|]. split.
    + rewrite <- (Hsel s Hs). unfold select. cbn [fst snd].
      now apply py_slice_valid_length.
    + intros label w0. rewrite compute_average_returns, (Hsel s Hs).
      apply compute_average_value_blocks. reflexivity.
  - unfold after. rewrite main_split, bind_run.
    rewrite (analysis_run (range_of args) (arg_input args) w f pg particles
               force cutoff len density temp press epot time)
      by assumption.
    cbv beta iota. cbn [fst snd].
    match goal with
    | |- stdout (snd (plot_and_dump ?a ?x ?y ?e ?w1)) = _ =>
        change (snd (plot_and_dump a x y e w1))
          with (after (plot_and_dump a x y e) w1);
        rewrite (keeps_plot_and_dump (@stdout F) a x y e)
    end.
    + rewrite Hrange, !Hsel by assumption. reflexivity.
    + right. intros fig w0. reflexivity.
    + intros path t _ w0. reflexivity.
Qed.

Lemma linspace_length (start stop : F) (num : nat) :
  (1 <= num)%nat -> length (linspace start stop num) = num.
Proof.
  intros Hn. unfold linspace.
  rewrite length_app, length_map, length_seq. simpl. lia.
Qed.

(** On a complete file, with plotting on and a selection that is not
    empty, a run makes exactly seven requests to the plotting library, in
    this order: the potential energy over time as a blue line labelled
    with the input path, a dotted black line of fifty points from the
    least to the greatest selected time at the height of the mean
    potential energy, tight axes, the two axis labels, the legend, and the
    display. *)
Theorem figure_of_a_run (args : arguments) (w : world) (f : h5file)
        (temp press epot time : list F) :
  h5files w (arg_input args) = Some f ->
  complete f temp press epot time ->
  length time = length epot ->
  arg_no_plot args = false ->
  select (range_of args) time <> [] ->
  let x := select (range_of args) time in
  let y := select (range_of args) epot in
  let m := fst (block_average y) in
  exists lo hi,
    py_min x = Ok lo /\ py_max x = Ok hi /\
    length (linspace lo hi 50) = 50%nat /\
    figure (after (main args) w)
    = (figure w
       ++ [ Plot x y "-b" (Some (arg_input args));
            Plot (linspace lo hi 50)
                 (map (fun z => f_add z m)
                      (map (fun _ => f_zero) (linspace lo hi 50)))
                 ":k" None;
            Axis "tight";
            XLabel "Time $t$";
            YLabel "Potential energy $E_\mathrm{pot}$";
            Legend;
            ShowFigure ])%list.
Proof.
  intros Hopen ((pg & particles & force & cutoff & len & density
                 & Hpg & E1 & E2 & E3 & E4 & E5)
                & Htemp & Hpress & Hepot & Htime) Hlen Hplot Hne x y m.
  unfold after. rewrite main_split, bind_run.
  rewrite (analysis_run (range_of args) (arg_input args) w f pg particles
             force cutoff len density temp press epot time)
    by assumption.
  cbv beta iota. cbn [fst snd]. fold x y m.
  unfold plot_and_dump. rewrite Hplot. cbn [negb when].
  rewrite (plot_same_length x y _ _
             (select_length (range_of args) time epot Hlen)).
  rewrite bind_run. unfold plotting at 1. cbv beta iota.
  match goal with
  | |- context [bind (append_plot_data args x y) _ ?W] =>
      destruct (append_plot_data_run args x y W
                  (select_length (range_of args) time epot Hlen))
        as (w2 & R2 & _ & _);
      pose proof (keeps_append_plot_data (@figure F) args x y
                    (fun path t _ w0 => eq_refl) W) as Hfig;
      unfold after in Hfig; rewrite R2 in Hfig;
      rewrite bind_run, R2
  end.
  cbn [snd set_figure figure set_stdout] in Hfig.
  cbv beta iota.
  destruct x as [|a x'] eqn:Hx; [contradiction|].
  eexists. eexists. split; [reflexivity|]. split; [reflexivity|].
  split; [apply linspace_length; lia|].
  unfold plot_mean_value, finalise_plot.
  unfold bind, lift. cbn [py_min py_max]. cbv beta iota zeta.
  rewrite plot_mean_line. unfold plotting.
  cbn [fst snd set_figure figure]. rewrite Hfig.
  rewrite <- !app_assoc. reflexivity.
Qed.

End DriverReport.

Section ReportedRuns.

Local Open Scope string_scope.

Lemma details_printed_witness :
  print_details sample_param sample_world
  = (Ok tt,
     set_stdout ("Particles: 1000" ++ nl
                 ++ "Force cutoff: 2.5" ++ nl
                 ++ "Box size:  10  10  10" ++ nl
                 ++ "Density: 0.75" ++ nl) false sample_world).
Proof.
  exact (details_printed sample_param "1000" "lennard_jones" "2.5"
           (series [10; 10; 10]) (f_div (b64_of_Z 3) (b64_of_Z 4))
           sample_world eq_refl eq_refl eq_refl eq_refl eq_refl).
Defined.

Lemma printed_report_witness :
  stdout (after (main (dump_args None)) sample_world)
  = "Particles: 1000" ++ nl
    ++ "Force cutoff: 2.5" ++ nl
    ++ "Box size:  10  10  10" ++ nl
    ++ "Density: 0.75" ++ nl
    ++ "Temperature: 1.5000 " ++ plus_minus ++ " 0.17" ++ nl
    ++ "Pressure: 3.0000 " ++ plus_minus ++ " 0" ++ nl
    ++ "Potential energy: -5.0000 " ++ plus_minus ++ " 0.26" ++ nl.
Proof.
  exact (printed_report (dump_args None) sample_world sample_file sample_param
           "1000" "lennard_jones" "2.5" (series [10; 10; 10])
           (f_div (b64_of_Z 3) (b64_of_Z 4))
           _ _ _ _
           eq_refl eq_refl eq_refl eq_refl eq_refl eq_refl eq_refl
           eq_refl eq_refl eq_refl eq_refl).
Defined.

(** A run with [--range 1 11] on the sample file: the potential energy
    that is reported is that of the ten samples 1 to 10 (-4.9), not that of
    the series (-5.0). *)
Lemma range_selected_before_reduction_witness :
  (arg_range (sample_args (Some (1, 11)) None true) = Some (1, 11) /\
   h5files sample_world (arg_input (sample_args (Some (1, 11)) None true))
   = Some sample_file /\
   0 <= 1 <= 11 /\
   11 <= Z.of_nat (length (series [-5; -4; -6; -5; -4; -6; -5; -4; -6; -5; -4; 7]))) /\
  select (range_of (sample_args (Some (1, 11)) None true))
         (series [-5; -4; -6; -5; -4; -6; -5; -4; -6; -5; -4; 7])
  = series [-4; -6; -5; -4; -6; -5; -4; -6; -5; -4] /\
  stdout (after (main (sample_args (Some (1, 11)) None true)) sample_world)
  = "Particles: 1000" ++ nl
    ++ "Force cutoff: 2.5" ++ nl
    ++ "Box size:  10  10  10" ++ nl
    ++ "Density: 0.75" ++ nl
    ++ "Temperature: 1.5000 " ++ plus_minus ++ " 0.17" ++ nl
    ++ "Pressure: 3.0000 " ++ plus_minus ++ " 0" ++ nl
    ++ "Potential energy: -4.9000 " ++ plus_minus ++ " 0.28" ++ nl.
Proof.
  assert (Hb : 11 <= 12) by lia.
  split; [repeat split; first [reflexivity | lia | exact Hb | discriminate]|].
  destruct (range_selected_before_reduction
              (sample_args (Some (1, 11)) None true) 1 11
              sample_world sample_file sample_param
              "1000" "lennard_jones" "2.5" (series [10; 10; 10])
              (f_div (b64_of_Z 3) (b64_of_Z 4))
              (series [1; 2; 1; 2; 1; 2; 1; 2; 1; 2; 1; 2])
              (series [3; 3; 3; 3; 3; 3; 3; 3; 3; 3; 3; 3])
              (series [-5; -4; -6; -5; -4; -6; -5; -4; -6; -5; -4; 7])
              (series [0; 1; 2; 3; 4; 5; 6; 7; 8; 9; 10; 11])
              eq_refl eq_refl eq_refl eq_refl eq_refl eq_refl eq_refl
              eq_refl eq_refl eq_refl eq_refl eq_refl
              (conj (Z.le_0_1) Hb) Hb Hb Hb)
    as (Hs & E).
  split.
  - rewrite (proj1 (Hs (series [-5; -4; -6; -5; -4; -6; -5; -4; -6; -5; -4; 7])
                       Hb)).
    reflexivity.
  - rewrite E. vm_compute. reflexivity.
Defined.

Lemma figure_of_a_run_witness :
  (arg_no_plot (sample_args (Some (0, 2)) None false) = false /\
   select (range_of (sample_args (Some (0, 2)) None false))
          (series [0; 1; 2; 3; 4; 5; 6; 7; 8; 9; 10; 11]) <> []) /\
  length (figure (after (main (sample_args (Some (0, 2)) None false))
                        sample_world)) = 7%nat.
Proof.
  split; [split; [reflexivity|vm_compute; discriminate]|].
  destruct (figure_of_a_run (sample_args (Some (0, 2)) None false)
              sample_world sample_file _ _ _ _
              eq_refl sample_file_complete eq_refl eq_refl)
    as (lo & hi & _ & _ & _ & E).
  - vm_compute. discriminate.
  - rewrite E. reflexivity.
Defined.

End ReportedRuns.
